(** * DMV Processor: the tax computation and the client-side declaration export

    A shallow embedding of [dmv_gui.js].  JavaScript Numbers that carry money
    or a size measure are IEEE 754 binary64 values, modelled by Rocq's
    primitive [float]; Numbers that count months or calendar fields are
    integers (or NaN), modelled over [Z]. *)

From Stdlib Require Import ZArith QArith List String Ascii DecimalString Bool Lia.
From Stdlib Require Import Floats.
Import ListNotations.

Set Warnings "-inexact-float".

Local Open Scope string_scope.
Local Open Scope float_scope.

(** * JavaScript: the values and built-in operations the page relies on *)

Module JS.

(** ** JavaScript values read by the calculation *)

(** A numeric property of a vehicle object: absent ([undefined]) or a Number. *)
Inductive field : Type :=
| Unset
| Num (x : float).

(** ToNumber on such a property: [undefined] converts to NaN. *)
Definition ToNumber (v : field) : float :=
  match v with
  | Unset => nan
  | Num x => x
  end.

(** ToBoolean on a Number: [0], [-0] and NaN are falsy. *)
Definition truthy (x : float) : bool := negb (is_nan x || is_zero x).

(** [v || d] for a numeric property [v] and a Number [d]. *)
Definition or_else (v : field) (d : float) : float :=
  match v with
  | Unset => d
  | Num x => if truthy x then x else d
  end.

(** Property lookup [obj[key]] in an object literal with string keys. *)
Fixpoint lookup (obj : list (string * float)) (key : string) : field :=
  match obj with
  | [] => Unset
  | (k, v) :: rest => if String.eqb k key then Num v else lookup rest key
  end.

Definition startsWith (s p : string) : bool := String.prefix p s.

(** ** Integer-valued Numbers *)

(** A Number known to be an integer, or NaN: the calendar fields a [Date]
    returns, the tax year [parseInt] reads, and the age in months. *)
Inductive intnum : Type :=
| NaNi
| Int (z : Z).

Definition isub (a b : intnum) : intnum :=
  match a, b with
  | Int x, Int y => Int (x - y)
  | _, _ => NaNi
  end.

Definition iadd (a b : intnum) : intnum :=
  match a, b with
  | Int x, Int y => Int (x + y)
  | _, _ => NaNi
  end.

Definition imul (a b : intnum) : intnum :=
  match a, b with
  | Int x, Int y => Int (x * y)
  | _, _ => NaNi
  end.

(** [Math.max(a, b)]: NaN as soon as one argument is NaN. *)
Definition Math_max (a b : intnum) : intnum :=
  match a, b with
  | Int x, Int y => Int (Z.max x y)
  | _, _ => NaNi
  end.

(** [a > b] and [a >= b]: false when an operand is NaN. *)
Definition igtb (a b : intnum) : bool :=
  match a, b with
  | Int x, Int y => (y <? x)%Z
  | _, _ => false
  end.

Definition igeb (a b : intnum) : bool :=
  match a, b with
  | Int x, Int y => (y <=? x)%Z
  | _, _ => false
  end.

(** ** Strings to Numbers *)

(** A string is the sequence of its code units, here those below 256. *)

Definition is_whitespace (c : ascii) : bool :=
  let n := nat_of_ascii c in
  ((9 <=? n) && (n <=? 13) || (n =? 32) || (n =? 160))%nat.

Definition digit_value (c : ascii) : option Z :=
  let n := Z.of_nat (nat_of_ascii c) in
  if ((48 <=? n) && (n <=? 57))%Z then Some (n - 48)%Z
  else if ((97 <=? n) && (n <=? 122))%Z then Some (n - 87)%Z
  else if ((65 <=? n) && (n <=? 90))%Z then Some (n - 55)%Z
  else None.

(** The longest prefix of digits of [radix], read as a numeral on top of
    [acc], with the number of digits read and the rest of the string. *)
Fixpoint read_digits (radix : Z) (s : string) (acc : Z) (n : nat)
  : Z * nat * string :=
  match s with
  | String c rest =>
      match digit_value c with
      | Some d =>
          if (d <? radix)%Z then read_digits radix rest (acc * radix + d)%Z (S n)
          else (acc, n, s)
      | None => (acc, n, s)
      end
  | EmptyString => (acc, n, s)
  end.

Fixpoint skip_whitespace (s : string) : string :=
  match s with
  | String c rest => if is_whitespace c then skip_whitespace rest else s
  | EmptyString => s
  end.

Definition read_sign (s : string) : bool * string :=
  match s with
  | String "-" rest => (true, rest)
  | String "+" rest => (false, rest)
  | _ => (false, s)
  end.

(** [parseInt(s)] without a radix argument.  The mathematical integer is
    kept as it is; a double holds it exactly below 2^53. *)
Definition parseInt (s : string) : intnum :=
  let (neg, s1) := read_sign (skip_whitespace s) in
  let (radix, s2) :=
    match s1 with
    | String "0" (String "x" rest) | String "0" (String "X" rest) => (16%Z, rest)
    | _ => (10%Z, s1)
    end in
  match read_digits radix s2 0%Z 0%nat with
  | (_, O, _) => NaNi
  | (v, _, _) => Int (if neg then - v else v)%Z
  end.

(** The result of ToNumber on a string.  A finite value is kept as the exact
    rational the literal denotes. *)
Inductive number : Type :=
| NaN
| Infinite (neg : bool)
| Finite (q : Q).

Fixpoint trim_end (s : string) : string :=
  match s with
  | EmptyString => EmptyString
  | String c rest =>
      match trim_end rest with
      | EmptyString => if is_whitespace c then EmptyString else String c EmptyString
      | rest' => String c rest'
      end
  end.

Definition trim (s : string) : string := trim_end (skip_whitespace s).

(** A numeral of [radix] that must fill the whole string. *)
Definition all_digits (radix : Z) (s : string) : number :=
  match read_digits radix s 0%Z 0%nat with
  | (v, S _, EmptyString) => Finite (inject_Z v)
  | _ => NaN
  end.

(** [m * 10^e] as a rational. *)
Definition scale10 (m e : Z) : Q :=
  if (0 <=? e)%Z then inject_Z (m * 10 ^ e)
  else Qmake m (Z.to_pos (10 ^ (- e))).

(** The exponent part of a decimal literal, up to the end of the string. *)
Definition read_exponent (s : string) : option Z :=
  match s with
  | EmptyString => Some 0%Z
  | String "e" rest | String "E" rest =>
      let (neg, digits) := read_sign rest in
      match read_digits 10 digits 0%Z 0%nat with
      | (v, S _, EmptyString) => Some (if neg then - v else v)%Z
      | _ => None
      end
  | _ => None
  end.

Definition decimal_literal (s : string) : number :=
  let (neg, s1) := read_sign s in
  if String.eqb s1 "Infinity" then Infinite neg
  else
    let '(ip, ni, s2) := read_digits 10 s1 0%Z 0%nat in
    let '(m, nf, s3) :=
      match s2 with
      | String "." rest => read_digits 10 rest ip 0%nat
      | _ => (ip, 0%nat, s2)
      end in
    match (ni + nf)%nat, read_exponent s3 with
    | S _, Some e =>
        let q := scale10 m (e - Z.of_nat nf) in
        Finite (if neg then Qopp q else q)
    | _, _ => NaN
    end.

(** StringToNumber: white space is trimmed, the empty string is [0], then a
    radix-prefixed integer or a decimal literal, anything else is NaN. *)
Definition StringToNumber (s : string) : number :=
  match trim s with
  | EmptyString => Finite 0
  | String "0" (String "x" rest) | String "0" (String "X" rest) => all_digits 16 rest
  | String "0" (String "o" rest) | String "0" (String "O" rest) => all_digits 8 rest
  | String "0" (String "b" rest) | String "0" (String "B" rest) => all_digits 2 rest
  | t => decimal_literal t
  end.

(** [x - 1] after ToNumber. *)
Definition minus_one (x : number) : number :=
  match x with
  | Finite q => Finite (q - 1)
  | other => other
  end.

Definition number_of_intnum (x : intnum) : number :=
  match x with
  | NaNi => NaN
  | Int z => Finite (inject_Z z)
  end.

(** ToIntegerOrInfinity on a finite Number: truncation towards zero. *)
Definition truncate (q : Q) : Z := Z.quot (Qnum q) (Zpos (Qden q)).

(** [String.prototype.split] on a one-character separator. *)
Fixpoint split (sep : ascii) (s : string) : list string :=
  match s with
  | EmptyString => [EmptyString]
  | String c rest =>
      if Ascii.eqb c sep then EmptyString :: split sep rest
      else
        match split sep rest with
        | first :: others => String c first :: others
        | [] => [String c EmptyString]
        end
  end.

(** ** Dates *)

(** A [Date] is invalid or holds a day of the proleptic Gregorian calendar,
    numbered from 1 January 1970, in local time: the constructor and the
    getters used here both work in local time, so the time zone cancels
    (the range check of [new_Date] is taken on the local day as well). *)
Definition Date : Type := option Z.

Definition DaysInYear (y : Z) : Z :=
  if negb (y mod 4 =? 0)%Z then 365%Z
  else if negb (y mod 100 =? 0)%Z then 366%Z
  else if negb (y mod 400 =? 0)%Z then 365%Z
  else 366%Z.

Definition DayFromYear (y : Z) : Z :=
  (365 * (y - 1970) + (y - 1969) / 4 - (y - 1901) / 100 + (y - 1601) / 400)%Z.

Definition InLeapYear (y : Z) : Z := if (DaysInYear y =? 366)%Z then 1%Z else 0%Z.

(** The day within the year on which month [m] (0 to 11) starts. *)
Definition month_start (m leap : Z) : Z :=
  match m with
  | 0 => 0 | 1 => 31 | 2 => 59 + leap | 3 => 90 + leap
  | 4 => 120 + leap | 5 => 151 + leap | 6 => 181 + leap | 7 => 212 + leap
  | 8 => 243 + leap | 9 => 273 + leap | 10 => 304 + leap | _ => 334 + leap
  end%Z.

(** The largest year that starts on or before [day]. *)
Definition YearFromDay (day : Z) : Z :=
  let y := (1970 + day * 400 / 146097)%Z in
  if (DayFromYear (y + 1) <=? day)%Z then (y + 1)%Z
  else if (DayFromYear y <=? day)%Z then y
  else (y - 1)%Z.

Definition MonthFromDay (day : Z) : Z :=
  let y := YearFromDay day in
  let d := (day - DayFromYear y)%Z in
  let leap := InLeapYear y in
  if (d <? 31)%Z then 0 else if (d <? 59 + leap)%Z then 1
  else if (d <? 90 + leap)%Z then 2 else if (d <? 120 + leap)%Z then 3
  else if (d <? 151 + leap)%Z then 4 else if (d <? 181 + leap)%Z then 5
  else if (d <? 212 + leap)%Z then 6 else if (d <? 243 + leap)%Z then 7
  else if (d <? 273 + leap)%Z then 8 else if (d <? 304 + leap)%Z then 9
  else if (d <? 334 + leap)%Z then 10 else 11%Z.

(** [new Date(year, month, date)]: the arguments are truncated, a year from 0
    to 99 means 1900 + year, months and days out of range carry over, and a
    time outside 100 000 000 days around the epoch gives an invalid date. *)
Definition new_Date (year month date : number) : Date :=
  match year, month, date with
  | Finite y, Finite m, Finite dt =>
      let yi := truncate y in
      let yr := if ((0 <=? yi) && (yi <=? 99))%Z then (1900 + yi)%Z else yi in
      let mi := truncate m in
      let ym := (yr + mi / 12)%Z in
      let mn := (mi mod 12)%Z in
      let day := (DayFromYear ym + month_start mn (InLeapYear ym) + truncate dt - 1)%Z in
      if (Z.abs day <=? 100000000)%Z then Some day else None
  | _, _, _ => None
  end.

Definition getFullYear (d : Date) : intnum :=
  match d with
  | Some day => Int (YearFromDay day)
  | None => NaNi
  end.

Definition getMonth (d : Date) : intnum :=
  match d with
  | Some day => Int (MonthFromDay day)
  | None => NaNi
  end.

(** ** Numbers to strings *)

Definition decimal (n : Z) : string := NilZero.string_of_uint (N.to_uint (Z.to_N n)).

Fixpoint strip_zeros_end (s : string) : string :=
  match s with
  | EmptyString => EmptyString
  | String c rest =>
      match strip_zeros_end rest with
      | EmptyString => if Ascii.eqb c "0" then EmptyString else String c EmptyString
      | rest' => String c rest'
      end
  end.

(** The double nearest to the integer [v] (ties to even). *)
Definition nearest_double (v : Z) : float :=
  SF2Prim (binary_normalize prec emax v 0%Z false).

(** The integers with [k] significant digits next to [v] that read back as
    the double [x]; the nearer one first. *)
Definition candidates (x : float) (v : Z) (k : Z) : list Z :=
  let p := (10 ^ (Z.of_nat (String.length (decimal v)) - k))%Z in
  let lo := (v / p * p)%Z in
  let hi := (lo + p)%Z in
  let ordered := if (v - lo <=? hi - v)%Z then [lo; hi] else [hi; lo] in
  filter (fun c => nearest_double c =? x) ordered.

Fixpoint shortest (x : float) (v : Z) (ks : list Z) : Z :=
  match ks with
  | [] => v
  | k :: rest =>
      match candidates x v k with
      | c :: _ => c
      | [] => shortest x v rest
      end
  end.

(** Number::toString on a positive integer-valued double of at least 10^21:
    the shortest digits that read back as the same double, in exponent form. *)
Definition exponent_form (x : float) (v : Z) : string :=
  let c := decimal (shortest x v (map Z.of_nat (seq 1 17))) in
  let e := decimal (Z.of_nat (String.length c) - 1) in
  match strip_zeros_end c with
  | String d EmptyString => String d "e+" ++ e
  | String d more => String d "." ++ more ++ "e+" ++ e
  | EmptyString => "0"
  end.

(** The digits of [n] hundredths with the decimal point set. *)
Definition hundredths (n : Z) : string :=
  let digits := decimal n in
  let k := String.length digits in
  let padded :=
    match k with
    | 0%nat => "000" | 1%nat => "00" ++ digits | 2%nat => "0" ++ digits | _ => digits
    end in
  let cut := (String.length padded - 2)%nat in
  substring 0 cut padded ++ "." ++ substring cut 2 padded.

(** [x.toFixed(2)]: the value of the double times 100, rounded to the nearest
    integer with ties upwards in magnitude; from 10^21 on the exponent form. *)
Definition toFixed2 (x : float) : string :=
  match Prim2SF x with
  | S754_nan => "NaN"
  | S754_infinity s => if s then "-Infinity" else "Infinity"
  | S754_zero _ => "0.00"
  | S754_finite s m e =>
      (if s then "-" else "") ++
      (if 1e21 <=? abs x then exponent_form (abs x) (Zpos m * 2 ^ e)
       else if (0 <=? e)%Z then hundredths (Zpos m * 2 ^ e * 100)
       else hundredths ((Zpos m * 200 + 2 ^ (- e)) / 2 ^ (1 - e)))
  end.

(** ** Text operations *)

(** [s.toLowerCase()]: on code units below 256 the capital letters of ASCII
    and of Latin-1 (all of 192 to 222 but the sign at 215) move up by 32. *)
Definition lower (c : ascii) : ascii :=
  let n := nat_of_ascii c in
  if ((65 <=? n) && (n <=? 90)
      || (192 <=? n) && (n <=? 222) && negb (n =? 215))%nat
  then ascii_of_nat (n + 32) else c.

Fixpoint toLowerCase (s : string) : string :=
  match s with
  | EmptyString => EmptyString
  | String c rest => String (lower c) (toLowerCase rest)
  end.

(** [s.endsWith(p)] *)
Definition endsWith (s p : string) : bool :=
  let n := String.length s in
  let k := String.length p in
  (k <=? n)%nat && String.eqb (substring (n - k) k s) p.

(** [s.replace(/\s/g, '')] *)
Fixpoint remove_whitespace (s : string) : string :=
  match s with
  | EmptyString => EmptyString
  | String c rest =>
      if is_whitespace c then remove_whitespace rest
      else String c (remove_whitespace rest)
  end.

(** [v || d] for a text property [v] that may be absent. *)
Definition or_text (v : option string) (d : string) : string :=
  match v with
  | None | Some EmptyString => d
  | Some s => s
  end.

End JS.

Import JS.

(** * The page script *)

(** ** Rate tables *)

Record Pasmo : Type := mkPasmo { p_od : float; p_do : float; p_sadzba : float }.

Definition SADZBY_M1 : list Pasmo :=
  [ mkPasmo 0 150 50; mkPasmo 150 900 62;
    mkPasmo 900 1200 80; mkPasmo 1200 1500 115;
    mkPasmo 1500 2000 148; mkPasmo 2000 3000 180;
    mkPasmo 3000 infinity 218 ].

Definition SADZBY_O : list (string * float) :=
  [ ("O1", 50); ("O2", 115); ("O3", 180); ("O4", 295) ].

Definition SADZBY_N1 : list Pasmo :=
  [ mkPasmo 0 2 115; mkPasmo 2 4 148;
    mkPasmo 4 6 180; mkPasmo 6 8 218;
    mkPasmo 8 10 253; mkPasmo 10 12 295 ].

(** [for (const s of tab) if (x > s.od && x <= s.do) return s.sadzba;]
    [None] when the loop falls through. *)
Fixpoint najdi_pasmo (tab : list Pasmo) (x : float) : option float :=
  match tab with
  | [] => None
  | s :: rest =>
      if (p_od s <? x) && (x <=? p_do s) then Some (p_sadzba s)
      else najdi_pasmo rest x
  end.

Definition getZakladnaSadzba (kat : string) (objem hmotnost : field) : float :=
  if String.eqb kat "M1" || String.eqb kat "L" then
    match najdi_pasmo SADZBY_M1 (ToNumber objem) with
    | Some r => r
    | None => 218
    end
  else if startsWith kat "O" then or_else (lookup SADZBY_O kat) 50
  else
    let hmotnostT := ToNumber hmotnost / 1000 in
    match najdi_pasmo SADZBY_N1 hmotnostT with
    | Some r => r
    | None => 115
    end.

(** ** Age of a vehicle and its coefficient *)

Definition vypocitajVek (rok_value : string) (datumStr : option string) : intnum :=
  match datumStr with
  | None | Some EmptyString => Int 0
  | Some s =>
      match split "." s with
      | [den; mesiac; r] =>
          let rok := parseInt rok_value in
          let datumEv :=
            new_Date (StringToNumber r) (minus_one (StringToNumber mesiac))
                     (StringToNumber den) in
          let koniec := new_Date (number_of_intnum rok) (Finite 11) (Finite 31) in
          Math_max (Int 0)
            (iadd (imul (isub (getFullYear koniec) (getFullYear datumEv)) (Int 12))
                  (isub (getMonth koniec) (getMonth datumEv)))
      | _ => Int 0
      end
  end.

(** An age tier [od, do); [u_do = None] is the bound [Infinity]. *)
Record Uprava : Type := mkUprava { u_od : Z; u_do : option Z; u_koef : float }.

Definition UPRAVA_2024 : list Uprava :=
  [ mkUprava 0 (Some 36%Z) 0.75; mkUprava 36 (Some 72%Z) 0.80;
    mkUprava 72 (Some 108%Z) 0.85; mkUprava 108 (Some 144%Z) 1.00;
    mkUprava 144 (Some 156%Z) 1.10; mkUprava 156 None 1.20 ].

Definition UPRAVA_2025 : list Uprava :=
  [ mkUprava 0 (Some 36%Z) 1.00; mkUprava 36 (Some 72%Z) 1.10;
    mkUprava 72 (Some 108%Z) 1.20; mkUprava 108 (Some 144%Z) 1.30;
    mkUprava 144 (Some 180%Z) 1.40; mkUprava 180 None 1.50 ].

(** [vek < u.do] *)
Definition below (vek : intnum) (bound : option Z) : bool :=
  match vek, bound with
  | NaNi, _ => false
  | Int _, None => true
  | Int v, Some b => (v <? b)%Z
  end.

Fixpoint najdi_upravu (upravy : list Uprava) (vek : intnum) : option float :=
  match upravy with
  | [] => None
  | u :: rest =>
      if igeb vek (Int (u_od u)) && below vek (u_do u) then Some (u_koef u)
      else najdi_upravu rest vek
  end.

Definition getKoefVeku (rok_value : string) (vek : intnum) : float :=
  let rok := parseInt rok_value in
  let upravy := if igeb rok (Int 2025) then UPRAVA_2025 else UPRAVA_2024 in
  match najdi_upravu upravy vek with
  | Some k => k
  | None => u_koef (last upravy (mkUprava 0 None nan))
  end.

(** ** Vehicles *)

(** A vehicle object.  The entered properties come from the form or from the
    server's reply; the derived ones ([zakladnaSadzba], [sadzba], [vek], [dan])
    are absent until a recomputation writes them. *)
Record Vozidlo : Type := mkVozidlo {
  evc : string;
  kategoria : string;
  datum : option string;
  datumVzniku : option string;
  objem : field;
  hmotnost : field;
  mesiace : field;
  hybrid : bool;
  plyn : bool;
  kombi : bool;
  zakladnaSadzba : field;
  sadzba : field;
  vek : option intnum;
  dan : field
}.

(** The page: the company fields and the tax year as the inputs hold them,
    the global array [vozidla], and whether the page was served over HTTP. *)
Record Stranka : Type := mkStranka {
  USE_API : bool;
  dic : string;
  nazov : string;
  ulica : string;
  cislo : string;
  psc : string;
  obec : string;
  rok : string;
  vozidla : list Vozidlo
}.

(** The body of the [forEach] in [prepocitatVsetky]. *)
Definition prepocitajVozidlo (rok_value : string) (v : Vozidlo) : Vozidlo :=
  let zakladna := getZakladnaSadzba (kategoria v) (objem v) (hmotnost v) in
  let vek := vypocitajVek rok_value (datum v) in
  let sadzba := zakladna in
  let sadzba :=
    if igtb vek (Int 0) && negb (startsWith (kategoria v) "O")
    then zakladna * getKoefVeku rok_value vek else sadzba in
  let sadzba := if hybrid v || plyn v then sadzba * 0.5 else sadzba in
  let sadzba := if kombi v then sadzba * 0.5 else sadzba in
  mkVozidlo (evc v) (kategoria v) (datum v) (datumVzniku v)
            (objem v) (hmotnost v) (mesiace v) (hybrid v) (plyn v) (kombi v)
            (Num zakladna) (Num sadzba) (Some vek)
            (Num ((sadzba / 12) * ToNumber (mesiace v))).

(** Every vehicle of the page is recomputed in place, in order.  The redraw
    of the table and the log line that follow only touch the display. *)
Definition prepocitatVsetky (st : Stranka) : Stranka :=
  mkStranka (USE_API st) (dic st) (nazov st) (ulica st) (cislo st) (psc st)
            (obec st) (rok st)
            (map (prepocitajVozidlo (rok st)) (vozidla st)).

(** The vehicle form of the dialog.  The three numeric inputs are given by
    what [parseFloat] and [parseInt] return on their text (NaN when it is
    empty or not a number). *)
Record Formular : Type := mkFormular {
  vKategoria : string;
  vObjem : float;
  vHmotnost : float;
  vDatum : string;
  vMesiace : float;
  vHybrid : bool;
  vPlyn : bool;
  vKombi : bool
}.

(** What [prepocitat] returns: [{zakladna, sadzba, dan, vek}]; the same
    numbers are also written into the dialog. *)
Record Vypocet : Type := mkVypocet {
  r_zakladna : float;
  r_sadzba : float;
  r_dan : float;
  r_vek : intnum
}.

Definition prepocitat (rok_value : string) (f : Formular) : Vypocet :=
  let kat := vKategoria f in
  let objem := or_else (Num (vObjem f)) 0 in
  let hmotnost := or_else (Num (vHmotnost f)) 0 in
  let datum := vDatum f in
  let mesiace := or_else (Num (vMesiace f)) 12 in
  let hybrid := vHybrid f in
  let plyn := vPlyn f in
  let kombi := vKombi f in
  let zakladna := getZakladnaSadzba kat (Num objem) (Num hmotnost) in
  let vek := vypocitajVek rok_value (Some datum) in
  let sadzba := zakladna in
  let sadzba :=
    if igtb vek (Int 0) && negb (startsWith kat "O")
    then zakladna * getKoefVeku rok_value vek else sadzba in
  let sadzba := if hybrid || plyn then sadzba * 0.5 else sadzba in
  let sadzba := if kombi then sadzba * 0.5 else sadzba in
  let dan := (sadzba / 12) * mesiace in
  mkVypocet zakladna sadzba dan vek.

(** ** Export of the declaration *)

Inductive Hlasenie : Type :=
| Zadajte_DIC
| Pridajte_vozidlo
| Chyba (text : string).

Record Spolocnost : Type := mkSpolocnost {
  s_typ : string;
  s_dic : string;
  s_nazov : string;
  s_ulica : string;
  s_cislo : string;
  s_psc : string;
  s_obec : string
}.

(** The JSON body posted to [/api/export-xml]. *)
Record Poziadavka : Type := mkPoziadavka {
  p_spolocnost : Spolocnost;
  p_vozidla : list Vozidlo;
  p_rok : string
}.

(** What the server answers: a document, an error payload, or nothing that
    can be read (the [fetch] or the decoding throws). *)
Inductive Odpoved : Type :=
| Ok (blob : string)
| NotOk (error : string)
| Zlyhanie (message : string).

(** What a call of [exportXML] does to the outside, in order. *)
Inductive Udalost : Type :=
| Alert (h : Hlasenie)
| Fetch (p : Poziadavka)
| Download (subor : string) (obsah : string)
| Log (subor : string) (zjednodusene : bool).

Definition LF : string := String (ascii_of_nat 10) EmptyString.
Definition QUOT : string := String (ascii_of_nat 34) EmptyString.
Definition a_acute : string := String (ascii_of_nat 225) EmptyString.

(** [vozidla.reduce((sum, v) => sum + (v.dan || 0), 0)] *)
Definition celkovaDan (vs : list Vozidlo) : float :=
  fold_left (fun sum v => sum + or_else (dan v) 0) vs 0.

Definition hlavicka (st : Stranka) : string :=
  "<hlavicka>" ++ LF ++
  "<fo>0</fo><po>1</po><zahranicna>0</zahranicna>" ++ LF ++
  "<dic>" ++ dic st ++ "</dic>" ++ LF ++
  "<typDP><rdp>1</rdp><odp>0</odp><ddp>0</ddp></typDP>" ++ LF ++
  "<zdanovacieObdobie><od>1.1." ++ rok st ++ "</od><do>31.12." ++ rok st
    ++ "</do></zdanovacieObdobie>" ++ LF ++
  "<poObchodneMeno><riadok>" ++ nazov st ++ "</riadok></poObchodneMeno>" ++ LF ++
  "<sidlo>" ++ LF ++
  "<ulica>" ++ ulica st ++ "</ulica>" ++ LF ++
  "<cislo>" ++ cislo st ++ "</cislo>" ++ LF ++
  "<psc>" ++ psc st ++ "</psc>" ++ LF ++
  "<obec>" ++ obec st ++ "</obec>" ++ LF ++
  "<stat>Slovensk" ++ a_acute ++ " republika</stat>" ++ LF ++
  "</sidlo>" ++ LF ++
  "</hlavicka>" ++ LF.

Definition telo (pocet suma : string) : string :=
  "<telo>" ++ LF ++
  "<r35>" ++ pocet ++ "</r35>" ++ LF ++
  "<r36>" ++ suma ++ "</r36>" ++ LF ++
  "<r38>" ++ suma ++ "</r38>" ++ LF ++
  "<r40>" ++ suma ++ "</r40>" ++ LF ++
  "</telo>" ++ LF.

Definition prolog : string :=
  "<?xml version=" ++ QUOT ++ "1.0" ++ QUOT ++ " encoding=" ++ QUOT ++ "UTF-8"
    ++ QUOT ++ "?>" ++ LF ++
  "<dokument>" ++ LF.

(** The template of the client-side export. *)
Definition xml (st : Stranka) : string :=
  prolog ++
  hlavicka st ++
  telo (decimal (Z.of_nat (List.length (vozidla st))))
       (toFixed2 (celkovaDan (vozidla st))) ++
  "</dokument>".

Definition subor (st : Stranka) : string :=
  "dmv_" ++ dic st ++ "_" ++ rok st ++ ".xml".

Definition exportXML (st : Stranka) (server : Poziadavka -> Odpoved)
  : list Udalost :=
  match dic st with
  | EmptyString => [Alert Zadajte_DIC]
  | _ =>
      match vozidla st with
      | [] => [Alert Pridajte_vozidlo]
      | _ =>
          if USE_API st then
            let body :=
              mkPoziadavka
                (mkSpolocnost "PO" (dic st) (nazov st) (ulica st) (cislo st)
                              (psc st) (obec st))
                (vozidla st) (rok st) in
            Fetch body ::
            match server body with
            | Ok blob => [Download (subor st) blob; Log (subor st) false]
            | NotOk error => [Alert (Chyba error)]
            | Zlyhanie message => [Alert (Chyba message)]
            end
          else [Download (subor st) (xml st); Log (subor st) true]
      end
  end.

(** ** The vehicle dialog and the array of vehicles *)

(** The dialog with its two text inputs that [prepocitat] does not read. *)
Record Dialog : Type := mkDialog {
  vEvc : string;
  vDatumVzniku : string;
  polia : Formular
}.

Inductive Zaznam : Type :=
| Pridane (evc : string)
| Upravene (evc : string).

(** What [ulozitVozidlo] leaves behind: only the alert for a missing plate,
    or the page, the global [editIndex] and the log line.  [Riedke] stands
    for a write beyond the end of the array, which would leave holes in it. *)
Inductive Ulozenie : Type :=
| Zadajte_ECV
| Ulozene (st : Stranka) (editIndex : Z) (zaznam : Zaznam)
| Riedke.

(** [vozidla[i] = v] for [i] up to the length of the array. *)
Definition zapis (vs : list Vozidlo) (i : nat) (v : Vozidlo) : list Vozidlo :=
  (firstn i vs ++ v :: skipn (S i) vs)%list.

Definition s_vozidlami (st : Stranka) (vs : list Vozidlo) : Stranka :=
  mkStranka (USE_API st) (dic st) (nazov st) (ulica st) (cislo st) (psc st)
            (obec st) (rok st) vs.

Section Vozidla.

(** [String.prototype.toUpperCase], whose results leave the code units
    below 256, is taken as it is. *)
Variable toUpperCase : string -> string.

Definition ulozitVozidlo (d : Dialog) (editIndex : Z) (st : Stranka) : Ulozenie :=
  let evc := remove_whitespace (toUpperCase (vEvc d)) in
  match evc with
  | EmptyString => Zadajte_ECV
  | _ =>
      let vypocet := prepocitat (rok st) (polia d) in
      let vozidlo :=
        mkVozidlo evc (vKategoria (polia d)) (Some (vDatum (polia d)))
                  (Some (vDatumVzniku d))
                  (Num (or_else (Num (vObjem (polia d))) 0))
                  (Num (or_else (Num (vHmotnost (polia d))) 0))
                  (Num (or_else (Num (vMesiace (polia d))) 12))
                  (vHybrid (polia d)) (vPlyn (polia d)) (vKombi (polia d))
                  (Num (r_zakladna vypocet)) (Num (r_sadzba vypocet))
                  (Some (r_vek vypocet)) (Num (r_dan vypocet)) in
      if (0 <=? editIndex)%Z then
        let i := Z.to_nat editIndex in
        if (i <=? List.length (vozidla st))%nat
        then Ulozene (s_vozidlami st (zapis (vozidla st) i vozidlo)) (-1) (Upravene evc)
        else Riedke
      else
        Ulozene (s_vozidlami st (vozidla st ++ [vozidlo])%list) (-1) (Pridane evc)
  end.

End Vozidla.

(** What [odstranVozidlo] leaves behind: the page as it was when the user
    declines, a [TypeError] when there is no vehicle at the index (the log
    line reads its plate first), or the page after [splice(index, 1)] with
    the plate that was logged. *)
Inductive Odstranenie : Type :=
| Ponechane (st : Stranka)
| TypeError
| Odstranene (st : Stranka) (evc : string).

Definition odstranVozidlo (potvrdene : bool) (index : nat) (st : Stranka)
  : Odstranenie :=
  if potvrdene then
    match nth_error (vozidla st) index with
    | None => TypeError
    | Some v =>
        Odstranene (s_vozidlami st (firstn index (vozidla st)
                                    ++ skipn (S index) (vozidla st))%list)
                   (evc v)
    end
  else Ponechane st.

(** ** Reading a fleet from a document *)

(** The company and the reply of [/api/upload-pdf]; a property of the JSON
    may be absent. *)
Record SpolocnostPDF : Type := mkSpolocnostPDF {
  n_dic : option string;
  n_nazov : option string;
  n_ulica : option string;
  n_cislo : option string;
  n_psc : option string;
  n_obec : option string
}.

Inductive OdpovedPDF : Type :=
| Nacitane (sp : SpolocnostPDF) (voz : option (list Vozidlo)) (message : string)
| Nenacitane (error : string)
| ZlyhaniePDF (message : string).

Inductive KrokPDF : Type :=
| Vyberte_PDF
| Spustite_server
| Odoslanie (subor : string) (rok_value : string)
| Oznamenie (nazov : string) (pocet : nat)
| Chyba_PDF (text : string).

Definition uploadPDF (subor : option string)
    (server : string -> string -> OdpovedPDF) (st : Stranka)
  : list KrokPDF * Stranka :=
  match subor with
  | None => ([], st)
  | Some name =>
      if negb (endsWith (toLowerCase name) ".pdf") then ([Vyberte_PDF], st)
      else if negb (USE_API st) then ([Spustite_server], st)
      else
        match server name (rok st) with
        | Nacitane sp voz message =>
            let st1 :=
              mkStranka (USE_API st) (or_text (n_dic sp) "") (or_text (n_nazov sp) "")
                        (or_text (n_ulica sp) "") (or_text (n_cislo sp) "")
                        (or_text (n_psc sp) "") (or_text (n_obec sp) "") (rok st)
                        (match voz with Some vs => vs | None => [] end) in
            let st2 := prepocitatVsetky st1 in
            ([Odoslanie name (rok st);
              Oznamenie (or_text (n_nazov sp) ("(bez n" ++ a_acute ++ "zvu)"))
                        (List.length (vozidla st2))], st2)
        | Nenacitane error => ([Odoslanie name (rok st); Chyba_PDF error], st)
        | ZlyhaniePDF message => ([Odoslanie name (rok st); Chyba_PDF message], st)
        end
  end.

(** ** Looking a company up in the registers *)

(** The seven company inputs of the page. *)
Record Udaje : Type := mkUdaje {
  o_dic : string;
  o_ico : string;
  o_nazov : string;
  o_ulica : string;
  o_cislo : string;
  o_psc : string;
  o_obec : string
}.

Record Zaznam_registra : Type := mkZaznam_registra {
  z_dic : option string;
  z_ico : option string;
  z_nazov : option string;
  z_ulica : option string;
  z_cislo : option string;
  z_psc : option string;
  z_obec : option string
}.

(** The JSON body posted to [/api/overit]. *)
Record Dopyt : Type := mkDopyt { q_ico : string; q_dic : string }.

Inductive OdpovedRegistra : Type :=
| Najdene (data : Zaznam_registra) (source : string)
| Nenajdene (error : option string)
| ZlyhanieRegistra (message : string).

Inductive KrokOverenia : Type :=
| Zadajte_DIC_alebo_ICO
| Odoslany (q : Dopyt)
| Nenajdena (text : option string)
| Offline
| Chyba_overenia (text : string).

Definition overitSpolocnost (use_api : bool) (server : Dopyt -> OdpovedRegistra)
    (u : Udaje) : list KrokOverenia * Udaje :=
  let dic := trim (o_dic u) in
  let ico := trim (o_ico u) in
  match dic, ico with
  | EmptyString, EmptyString => ([Zadajte_DIC_alebo_ICO], u)
  | _, _ =>
      if use_api then
        let q := mkDopyt (or_text (Some ico) dic) dic in
        match server q with
        | Najdene data source =>
            ([Odoslany q],
             mkUdaje (or_text (z_dic data) dic) (or_text (z_ico data) ico)
                     (or_text (z_nazov data) "") (or_text (z_ulica data) "")
                     (or_text (z_cislo data) "") (or_text (z_psc data) "")
                     (or_text (z_obec data) ""))
        | Nenajdene error => ([Odoslany q; Nenajdena error], u)
        | ZlyhanieRegistra message => ([Odoslany q; Chyba_overenia message], u)
        end
      else ([Offline], u)
  end.

(** * Vocabulary of the statements *)

(** The three classes of categories that [getZakladnaSadzba] tells apart. *)
Definition objemova (kat : string) : bool := String.eqb kat "M1" || String.eqb kat "L".
Definition hmotnostna (kat : string) : bool :=
  negb (objemova kat) && negb (startsWith kat "O").

(** The tiers of a table follow each other: a tier ends no later than any
    tier behind it starts. *)
Fixpoint chained (tab : list Pasmo) : bool :=
  match tab with
  | [] => true
  | t :: rest => forallb (fun s => p_do t <=? p_od s) rest && chained rest
  end.

(** The age tiers follow each other: a tier ends, and no later than any tier
    behind it starts. *)
Fixpoint chained_upravy (upravy : list Uprava) : bool :=
  match upravy with
  | [] => true
  | t :: rest =>
      forallb (fun u => match u_do t with
                        | Some e => (e <=? u_od u)%Z
                        | None => false
                        end) rest
      && chained_upravy rest
  end.

(** Every rate and every coefficient the tables hold. *)
Definition SADZBY : list float := [50; 62; 80; 115; 148; 180; 218; 253; 295].
Definition KOEFICIENTY : list float :=
  [0.75; 0.80; 0.85; 1.00; 1.10; 1.20; 1.30; 1.40; 1.50].

(** The days of month [m] (1 to 12) of year [y]. *)
Definition DaysInMonth (y m : Z) : Z :=
  match m with
  | 2 => 28 + InLeapYear y
  | 4 | 6 | 9 | 11 => 30
  | _ => 31
  end%Z.

(** A vehicle, and a dialog, with the hybrid and gas marks replaced. *)
Definition s_pohonom (v : Vozidlo) (h p : bool) : Vozidlo :=
  mkVozidlo (evc v) (kategoria v) (datum v) (datumVzniku v)
            (objem v) (hmotnost v) (mesiace v) h p (kombi v)
            (zakladnaSadzba v) (sadzba v) (vek v) (dan v).

Definition formular_s_pohonom (f : Formular) (h p : bool) : Formular :=
  mkFormular (vKategoria f) (vObjem f) (vHmotnost f) (vDatum f) (vMesiace f)
             h p (vKombi f).

(** The events that hand a declaration, or the data for one, to the outside. *)
Definition emits (e : Udalost) : bool :=
  match e with
  | Download _ _ | Fetch _ => true
  | Alert _ | Log _ _ => false
  end.

(** Sample inputs: a hybrid car in combined transport, a company page opened
    from a file with two computed vehicles, and a server that cannot be
    reached. *)
Definition octavia : Vozidlo :=
  mkVozidlo "BA123AB" "M1" (Some "15.3.2009") None (Num 1400) Unset (Num 12)
            true false true Unset Unset None Unset.

Definition firma : Stranka :=
  mkStranka false "2020123456" "A & B" "Hlavna" "1" "81101" "Bratislava" "2024"
            (map (prepocitajVozidlo "2024") [octavia; s_pohonom octavia false false]).

Definition server_offline : Poziadavka -> Odpoved := fun _ => Zlyhanie "offline".

(** The number of code units [c] in a text. *)
Fixpoint pocet (c : ascii) (s : string) : nat :=
  match s with
  | EmptyString => 0%nat
  | String x rest => ((if Ascii.eqb x c then 1 else 0) + pocet c rest)%nat
  end.

(** Every adjusted rate the tables can give: a base rate, with an age
    coefficient or without, whole, halved or halved twice. *)
Definition UPRAVENE : list float :=
  flat_map (fun z =>
    flat_map (fun a => [a; a * 0.5; a * 0.5 * 0.5])
             (z :: map (fun k => z * k) KOEFICIENTY)) SADZBY.

(** A vehicle with other months held. *)
Definition s_mesiacmi (v : Vozidlo) (m : field) : Vozidlo :=
  mkVozidlo (evc v) (kategoria v) (datum v) (datumVzniku v)
            (objem v) (hmotnost v) m (hybrid v) (plyn v) (kombi v)
            (zakladnaSadzba v) (sadzba v) (vek v) (dan v).

(** The rates of a table do not fall from tier to tier (and none is NaN). *)
Fixpoint rastuce (tab : list Pasmo) : bool :=
  match tab with
  | [] => true
  | t :: rest =>
      forallb (fun s => p_sadzba t <=? p_sadzba s) (t :: rest) && rastuce rest
  end.

(** Capitals on the letters of ASCII, where [toUpperCase] stays below 256:
    the instance the examples use. *)
Definition velke (s : string) : string :=
  string_of_list_ascii
    (map (fun c => let n := nat_of_ascii c in
                   if ((97 <=? n) && (n <=? 122))%nat then ascii_of_nat (n - 32) else c)
         (list_ascii_of_string s)).

Definition dialog_octavia : Dialog :=
  mkDialog " ba 123ab" "1.1.2024"
           (mkFormular "M1" 1400 nan "15.3.2009" nan true false true).

(** A server that reads one vehicle and a tax id out of every document. *)
Definition server_pdf : string -> string -> OdpovedPDF :=
  fun _ _ => Nacitane (mkSpolocnostPDF (Some "2020123456") None None None None None)
                      (Some [octavia]) "OK".

(** A register that knows one company by its id and returns its tax id and
    name only. *)
Definition register : Dopyt -> OdpovedRegistra :=
  fun q =>
    if String.eqb (q_ico q) "31322832"
    then Najdene (mkZaznam_registra (Some "2020123456") None (Some "Firma a.s.")
                                    None None None None) "ORSR"
    else Nenajdene None.

(** * Properties *)

(** ** The model on known values *)

(** One M1 vehicle of 1400 cm3, first registered in March 2009, held for the
    whole of 2024: base rate 115, 189 months, coefficient 1.20, tax 138.00;
    69.00 for a hybrid; 172.50 for the tax year 2025. *)
Example end_to_end_2024 :
  let v := mkVozidlo "BA123AB" "M1" (Some "15.3.2009") None (Num 1400) Unset
                     (Num 12) false false false Unset Unset None Unset in
  let v' := prepocitajVozidlo "2024" v in
  zakladnaSadzba v' = Num 115 /\ vek v' = Some (Int 189)
  /\ sadzba v' = Num 138 /\ toFixed2 (or_else (dan v') 0) = "138.00".
Proof. repeat split. Qed.

Example end_to_end_hybrid :
  let v := mkVozidlo "BA123AB" "M1" (Some "15.3.2009") None (Num 1400) Unset
                     (Num 12) true false false Unset Unset None Unset in
  toFixed2 (or_else (dan (prepocitajVozidlo "2024" v)) 0) = "69.00".
Proof. reflexivity. Qed.

Example end_to_end_2025 :
  let v := mkVozidlo "BA123AB" "M1" (Some "15.3.2009") None (Num 1400) Unset
                     (Num 12) false false false Unset Unset None Unset in
  toFixed2 (or_else (dan (prepocitajVozidlo "2025" v)) 0) = "172.50".
Proof. reflexivity. Qed.

(** [toFixed(2)] rounds the exact value of the double: 1.005 lies below the
    tie, 0.125 is a tie and goes up, and from 10^21 on the digits are those of
    the exponent form. *)
Example toFixed2_values :
  toFixed2 1.005 = "1.00" /\ toFixed2 0.125 = "0.13" /\ toFixed2 (-0.001) = "-0.00"
  /\ toFixed2 1e21 = "1e+21" /\ toFixed2 1180591620717411303424 = "1.1805916207174113e+21"
  /\ toFixed2 nan = "NaN".
Proof. repeat split. Qed.

(** Strings as the [Date] constructor reads them, and dates that carry over. *)
Example StringToNumber_values :
  StringToNumber " 03 " = Finite 3 /\ StringToNumber "" = Finite 0
  /\ StringToNumber "0x1F" = Finite 31 /\ StringToNumber "2e3" = Finite 2000
  /\ StringToNumber "marec" = NaN /\ StringToNumber "1 2" = NaN
  /\ split "." "15.3.2020" = ["15"; "3"; "2020"] /\ split "." "" = [""].
Proof. repeat split. Qed.

Example vypocitajVek_values :
  vypocitajVek "2024" (Some "15.3.2020") = Int 57
  /\ vypocitajVek "2024" (Some "31.2.2020") = Int 57
  /\ vypocitajVek "2024" (Some "1.1.2025") = Int 0
  /\ vypocitajVek "2024" (Some "15.3.99") = Int 309
  /\ vypocitajVek "2024" (Some "2020-03-15") = Int 0
  /\ vypocitajVek "rok" (Some "15.3.2020") = NaNi.
Proof. repeat split. Qed.

(** ** Order of doubles *)

(** The comparison of two doubles is the lexicographic one on sign, exponent
    and mantissa, so it is transitive and a strict bound excludes the converse
    loose one. *)

Ltac cmp_cases :=
  repeat match goal with
  | |- context [Z.compare ?a ?b] => destruct (Z.compare_spec a b)
  | |- context [Pos.compare_cont Eq ?a ?b] =>
      change (Pos.compare_cont Eq a b) with (Pos.compare a b);
      destruct (Pos.compare_spec a b)
  end.

Lemma SFleb_trans x y z :
  SFleb x y = true -> SFleb y z = true -> SFleb x z = true.
Proof.
  unfold SFleb.
  destruct x as [[]|[]| |[] mx ex], y as [[]|[]| |[] my ey],
           z as [[]|[]| |[] mz ez];
    cbn; try easy; cmp_cases; cbn; try easy; try lia.
Qed.

Lemma SFltb_SFleb_false x y :
  SFltb x y = true -> SFleb y x = true -> False.
Proof.
  unfold SFleb, SFltb.
  destruct x as [[]|[]| |[] mx ex], y as [[]|[]| |[] my ey];
    cbn; try easy; cmp_cases; cbn; try easy; try lia.
Qed.

Lemma leb_trans x y z :
  (x <=? y) = true -> (y <=? z) = true -> (x <=? z) = true.
Proof. rewrite !leb_spec. apply SFleb_trans. Qed.

Lemma ltb_leb_false x y : (x <? y) = true -> (y <=? x) = true -> False.
Proof. rewrite leb_spec, ltb_spec. apply SFltb_SFleb_false. Qed.

(** Two doubles that a test tells apart are different. *)
Lemma float_neq (x y : float) (test : float -> bool) :
  test x <> test y -> x <> y.
Proof. intros H E. apply H. now rewrite E. Qed.

(** ** The bracket lookup *)

Lemma najdi_pasmo_in tab x s :
  chained tab = true -> In s tab ->
  (p_od s <? x) = true -> (x <=? p_do s) = true ->
  najdi_pasmo tab x = Some (p_sadzba s).
Proof.
  induction tab as [|t rest IH]; intros Hc Hin Hlo Hhi; [easy|].
  cbn in Hc. apply andb_prop in Hc as [Hhead Hrest]. cbn.
  destruct Hin as [->|Hin].
  - now rewrite Hlo, Hhi.
  - destruct ((p_od t <? x) && (x <=? p_do t)) eqn:Hm; [|now apply IH].
    exfalso. apply andb_prop in Hm as [_ Hm].
    rewrite forallb_forall in Hhead.
    apply (ltb_leb_false _ _ Hlo). eapply leb_trans; eauto.
Qed.

Lemma najdi_pasmo_none tab x :
  (forall s, In s tab -> (p_od s <? x) && (x <=? p_do s) = false) ->
  najdi_pasmo tab x = None.
Proof.
  induction tab as [|t rest IH]; intros H; [easy|].
  cbn. rewrite (H t (or_introl eq_refl)). apply IH.
  intros s Hs. apply H. now right.
Qed.

(** Above every upper bound of the table no tier matches. *)
Lemma najdi_pasmo_above tab b x :
  forallb (fun s => p_do s <=? b) tab = true -> (b <? x) = true ->
  najdi_pasmo tab x = None.
Proof.
  intros Hb Hx. apply najdi_pasmo_none. intros s Hs.
  rewrite forallb_forall in Hb.
  destruct (x <=? p_do s) eqn:Hle; [|apply andb_false_r].
  exfalso. apply (ltb_leb_false _ _ Hx). eapply leb_trans; eauto.
Qed.

Lemma getZakladnaSadzba_objem kat objem hmotnost :
  objemova kat = true ->
  getZakladnaSadzba kat objem hmotnost =
  match najdi_pasmo SADZBY_M1 (ToNumber objem) with Some r => r | None => 218 end.
Proof. unfold getZakladnaSadzba, objemova. now intros ->. Qed.

Lemma getZakladnaSadzba_hmotnost kat objem hmotnost :
  hmotnostna kat = true ->
  getZakladnaSadzba kat objem hmotnost =
  match najdi_pasmo SADZBY_N1 (ToNumber hmotnost / 1000) with
  | Some r => r
  | None => 115
  end.
Proof.
  unfold getZakladnaSadzba, hmotnostna, objemova. intros H.
  apply andb_prop in H as [H1 H2].
  apply negb_true_iff in H1, H2. now rewrite H1, H2.
Qed.

Lemma objemova_iff kat : objemova kat = true <-> kat = "M1" \/ kat = "L".
Proof.
  unfold objemova. rewrite orb_true_iff, !String.eqb_eq. tauto.
Qed.

Lemma hmotnostna_iff kat :
  hmotnostna kat = true <->
  kat <> "M1" /\ kat <> "L" /\ startsWith kat "O" = false.
Proof.
  unfold hmotnostna. rewrite andb_true_iff, !negb_true_iff.
  rewrite <- not_true_iff_false, objemova_iff. tauto.
Qed.

(** ** C3: the bracket rule of the base-rate resolver *)

Ltac solve_rate kat H :=
  first [ rewrite (getZakladnaSadzba_objem kat _ _ H)
        | rewrite (getZakladnaSadzba_hmotnost kat _ _ H) ];
  reflexivity.

(** C3 (as amended).  A volume-based category (M1, L) takes the rate of the
    tier [(od, do]] its displacement lies in; 900 gives 62 and 900.01 gives 80;
    at every upper bound the rate is that of its tier and at every lower bound
    that of the tier before (218 at 0, where no tier matches).  Every category
    other than M1, L and O* (N1 among them) takes the rate of the tier its
    mass in tons lies in; 2 t gives 115 and 2.01 t gives 148; a mass above the
    last bound, and any mass in no tier, falls back to 115. *)
Theorem getZakladnaSadzba_brackets (kat : string) (objem hmotnost : field) :
  (kat = "M1" \/ kat = "L" ->
     (forall s, In s SADZBY_M1 ->
        (p_od s <? ToNumber objem) = true -> (ToNumber objem <=? p_do s) = true ->
        getZakladnaSadzba kat objem hmotnost = p_sadzba s)
     /\ getZakladnaSadzba kat (Num 900) hmotnost = 62
     /\ getZakladnaSadzba kat (Num 900.01) hmotnost = 80
     /\ map (fun s => getZakladnaSadzba kat (Num (p_do s)) hmotnost) SADZBY_M1
        = [50; 62; 80; 115; 148; 180; 218]
     /\ map (fun s => getZakladnaSadzba kat (Num (p_od s)) hmotnost) SADZBY_M1
        = [218; 50; 62; 80; 115; 148; 180])
  /\ (kat <> "M1" -> kat <> "L" -> startsWith kat "O" = false ->
     (forall s, In s SADZBY_N1 ->
        (p_od s <? ToNumber hmotnost / 1000) = true ->
        (ToNumber hmotnost / 1000 <=? p_do s) = true ->
        getZakladnaSadzba kat objem hmotnost = p_sadzba s)
     /\ getZakladnaSadzba kat objem (Num 2000) = 115
     /\ getZakladnaSadzba kat objem (Num 2010) = 148
     /\ map (fun s => getZakladnaSadzba kat objem (Num (p_do s * 1000))) SADZBY_N1
        = [115; 148; 180; 218; 253; 295]
     /\ map (fun s => getZakladnaSadzba kat objem (Num (p_od s * 1000))) SADZBY_N1
        = [115; 115; 148; 180; 218; 253]
     /\ ((12 <? ToNumber hmotnost / 1000) = true ->
           getZakladnaSadzba kat objem hmotnost = 115)
     /\ (najdi_pasmo SADZBY_N1 (ToNumber hmotnost / 1000) = None ->
           getZakladnaSadzba kat objem hmotnost = 115)).
Proof.
  split; [intros Hk; apply objemova_iff in Hk
         | intros H1 H2 H3;
           assert (Hk : hmotnostna kat = true) by now apply hmotnostna_iff].
  - repeat split; try solve_rate kat Hk.
    + intros s Hs Hlo Hhi. rewrite (getZakladnaSadzba_objem kat _ _ Hk).
      now rewrite (najdi_pasmo_in SADZBY_M1 _ s).
    + cbn [map SADZBY_M1]. now rewrite !(getZakladnaSadzba_objem kat _ _ Hk).
    + cbn [map SADZBY_M1]. now rewrite !(getZakladnaSadzba_objem kat _ _ Hk).
  - repeat split; try solve_rate kat Hk.
    + intros s Hs Hlo Hhi. rewrite (getZakladnaSadzba_hmotnost kat _ _ Hk).
      now rewrite (najdi_pasmo_in SADZBY_N1 _ s).
    + cbn [map SADZBY_N1]. now rewrite !(getZakladnaSadzba_hmotnost kat _ _ Hk).
    + cbn [map SADZBY_N1]. now rewrite !(getZakladnaSadzba_hmotnost kat _ _ Hk).
    + intros Hx. rewrite (getZakladnaSadzba_hmotnost kat _ _ Hk).
      now rewrite (najdi_pasmo_above SADZBY_N1 12).
    + intros Hx. rewrite (getZakladnaSadzba_hmotnost kat _ _ Hk).
      now rewrite Hx.
Qed.

Lemma getZakladnaSadzba_brackets_witness :
  getZakladnaSadzba "L" (Num 1000) Unset = 80
  /\ getZakladnaSadzba "N1" Unset (Num 3500) = 148
  /\ getZakladnaSadzba "N1" Unset (Num 12500) = 115.
Proof.
  pose proof (getZakladnaSadzba_brackets "L" (Num 1000) Unset) as [HL _].
  pose proof (getZakladnaSadzba_brackets "N1" Unset (Num 3500)) as [_ HN].
  pose proof (getZakladnaSadzba_brackets "N1" Unset (Num 12500)) as [_ HN'].
  split; [|split].
  - apply (proj1 (HL (or_intror eq_refl)) (mkPasmo 900 1200 80));
      [cbn; tauto | reflexivity..].
  - assert (H : "N1" <> "M1" /\ "N1" <> "L") by (split; discriminate).
    apply (proj1 (HN (proj1 H) (proj2 H) eq_refl) (mkPasmo 2 4 148));
      [cbn; tauto | reflexivity..].
  - assert (H : "N1" <> "M1" /\ "N1" <> "L") by (split; discriminate).
    apply (HN' (proj1 H) (proj2 H) eq_refl). reflexivity.
Defined.

(** C3, as stated, fails for a category outside M1, L, N1 and O*: it is not
    sent to the fallback 115 but through the mass brackets. *)
Lemma other_category_takes_mass_bracket :
  "N2" <> "M1" /\ "N2" <> "L" /\ "N2" <> "N1" /\ startsWith "N2" "O" = false
  /\ getZakladnaSadzba "N2" Unset (Num 3000) = 148
  /\ getZakladnaSadzba "N2" Unset (Num 3000) <> 115.
Proof.
  repeat split; try easy.
  all: apply (float_neq _ _ (fun r => r =? 115)); now vm_compute.
Qed.

(** ** C9: a displacement of 0, or none, takes the top rate *)

(** C9.  For category M1 or L a displacement that is 0 or unset resolves to
    218, the rate of the top bracket, as every displacement in no bracket
    does; it is not the rate 50 of the lowest bracket.  The dialog, where an
    empty or zero displacement input reads as 0, shows the same rate. *)
Theorem zero_displacement_top_rate (kat : string) (hmotnost : field) :
  kat = "M1" \/ kat = "L" ->
  getZakladnaSadzba kat (Num 0) hmotnost = 218
  /\ getZakladnaSadzba kat Unset hmotnost = 218
  /\ (forall objem, najdi_pasmo SADZBY_M1 (ToNumber objem) = None ->
        getZakladnaSadzba kat objem hmotnost = 218)
  /\ p_sadzba (last SADZBY_M1 (mkPasmo 0 0 0)) = 218
  /\ p_sadzba (hd (mkPasmo 0 0 0) SADZBY_M1) = 50
  /\ (forall rok_value f, vKategoria f = kat ->
        vObjem f = 0 \/ vObjem f = nan ->
        r_zakladna (prepocitat rok_value f) = 218).
Proof.
  intros Hk. apply objemova_iff in Hk.
  split; [|split; [|split; [|split; [|split]]]].
  - now rewrite (getZakladnaSadzba_objem kat _ _ Hk).
  - now rewrite (getZakladnaSadzba_objem kat _ _ Hk).
  - intros objem Hn. now rewrite (getZakladnaSadzba_objem kat _ _ Hk), Hn.
  - reflexivity.
  - reflexivity.
  - intros rok_value f <- Ho. unfold prepocitat. cbn [r_zakladna].
    rewrite (getZakladnaSadzba_objem _ _ _ Hk).
    now destruct Ho as [-> | ->].
Qed.

Lemma zero_displacement_top_rate_witness :
  getZakladnaSadzba "M1" (Num 0) (Num 1500) = 218
  /\ getZakladnaSadzba "M1" Unset (Num 1500) = 218.
Proof.
  pose proof (zero_displacement_top_rate "M1" (Num 1500) (or_introl eq_refl)) as H.
  split; [apply H | apply (proj1 (proj2 H))].
Defined.

(** ** C4: the age coefficient *)

Ltac z_cases :=
  repeat match goal with
  | |- context [(?a <=? ?b)%Z] => destruct (Z.leb_spec a b)
  | |- context [(?a <? ?b)%Z] => destruct (Z.ltb_spec a b)
  end.

(** Closes a goal on the coefficient of an age by finding the tier of the
    schedule it lies in. *)
Ltac tier_in Hgen a tiers :=
  lazymatch tiers with
  | ?u :: ?rest =>
      first [ solve [ apply (Hgen a u);
                      [ cbn; tauto | cbn; lia | intros e; cbn; intros [= <-]; lia ] ]
            | tier_in Hgen a rest ]
  end.

Ltac tier Hgen :=
  match goal with
  | |- getKoefVeku _ (Int ?a) = _ =>
      let t24 := eval unfold UPRAVA_2024 in UPRAVA_2024 in
      let t25 := eval unfold UPRAVA_2025 in UPRAVA_2025 in
      first [ tier_in Hgen a t24 | tier_in Hgen a t25 ]
  end.

Lemma getKoefVeku_table rok_value y vek :
  parseInt rok_value = Int y ->
  getKoefVeku rok_value vek =
  let upravy := if (2025 <=? y)%Z then UPRAVA_2025 else UPRAVA_2024 in
  match najdi_upravu upravy vek with
  | Some k => k
  | None => u_koef (last upravy (mkUprava 0 None nan))
  end.
Proof. unfold getKoefVeku. now intros ->. Qed.

Lemma najdi_upravu_in upravy vek u :
  chained_upravy upravy = true -> In u upravy ->
  (u_od u <= vek)%Z -> below (Int vek) (u_do u) = true ->
  najdi_upravu upravy (Int vek) = Some (u_koef u).
Proof.
  induction upravy as [|t rest IH]; intros Hc Hin Hlo Hhi; [easy|].
  cbn in Hc. apply andb_prop in Hc as [Hhead Hrest].
  cbn [najdi_upravu]. destruct Hin as [->|Hin].
  - rewrite Hhi. cbn. now destruct (Z.leb_spec (u_od u) vek); [|lia].
  - rewrite forallb_forall in Hhead. specialize (Hhead u Hin).
    destruct (u_do t) as [e|] eqn:He; [|easy].
    apply Z.leb_le in Hhead. cbn.
    destruct (Z.ltb_spec vek e); [lia|]. rewrite andb_false_r.
    now apply IH.
Qed.

(** C4.  The schedule is chosen by the tax year: the pre-cutoff table before
    2025, the other from 2025 on.  In it an age takes the coefficient of the
    tier [[od, do)] it lies in: 36 months before 2025 give 0.80 and not 0.75,
    and an age at or beyond the highest bound gives the last coefficient. *)
Theorem getKoefVeku_schedule (rok_value : string) (y vek : Z) :
  parseInt rok_value = Int y ->
  let upravy := if (y <? 2025)%Z then UPRAVA_2024 else UPRAVA_2025 in
  (forall u, In u upravy -> (u_od u <= vek)%Z ->
     (forall e, u_do u = Some e -> (vek < e)%Z) ->
     getKoefVeku rok_value (Int vek) = u_koef u)
  /\ ((y < 2025)%Z ->
       ((0 <= vek < 36)%Z -> getKoefVeku rok_value (Int vek) = 0.75)
       /\ ((36 <= vek < 72)%Z -> getKoefVeku rok_value (Int vek) = 0.80)
       /\ ((72 <= vek < 108)%Z -> getKoefVeku rok_value (Int vek) = 0.85)
       /\ ((108 <= vek < 144)%Z -> getKoefVeku rok_value (Int vek) = 1.00)
       /\ ((144 <= vek < 156)%Z -> getKoefVeku rok_value (Int vek) = 1.10)
       /\ ((156 <= vek)%Z -> getKoefVeku rok_value (Int vek) = 1.20)
       /\ getKoefVeku rok_value (Int 36) = 0.80
       /\ getKoefVeku rok_value (Int 36) <> 0.75)
  /\ ((2025 <= y)%Z ->
       ((0 <= vek < 36)%Z -> getKoefVeku rok_value (Int vek) = 1.00)
       /\ ((36 <= vek < 72)%Z -> getKoefVeku rok_value (Int vek) = 1.10)
       /\ ((72 <= vek < 108)%Z -> getKoefVeku rok_value (Int vek) = 1.20)
       /\ ((108 <= vek < 144)%Z -> getKoefVeku rok_value (Int vek) = 1.30)
       /\ ((144 <= vek < 180)%Z -> getKoefVeku rok_value (Int vek) = 1.40)
       /\ ((180 <= vek)%Z -> getKoefVeku rok_value (Int vek) = 1.50)).
Proof.
  intros Hy upravy.
  assert (Htab : forall a, getKoefVeku rok_value (Int a) =
            match najdi_upravu upravy (Int a) with
            | Some k => k
            | None => u_koef (last upravy (mkUprava 0 None nan))
            end).
  { intros a. rewrite (getKoefVeku_table _ _ _ Hy). subst upravy.
    now destruct (Z.leb_spec 2025 y), (Z.ltb_spec y 2025); try lia. }
  assert (Hgen : forall a u, In u upravy -> (u_od u <= a)%Z ->
            (forall e, u_do u = Some e -> (a < e)%Z) ->
            getKoefVeku rok_value (Int a) = u_koef u).
  { intros a u Hu Hlo Hhi. rewrite Htab.
    rewrite (najdi_upravu_in upravy a u); auto.
    + subst upravy. now destruct (y <? 2025)%Z.
    + destruct (u_do u) as [e|]; [|easy].
      apply Z.ltb_lt. now apply Hhi. }
  split; [apply Hgen|]. subst upravy.
  split; [intros Hlt; apply Z.ltb_lt in Hlt | intros Hge; apply Z.ltb_ge in Hge];
    rewrite ?Hlt, ?Hge in Hgen.
  - repeat split; try intros H; try tier Hgen.
    rewrite (Hgen 36%Z (mkUprava 36 (Some 72%Z) 0.80)) in H;
      [ discriminate | cbn; tauto | cbn; lia | intros e [= <-]; lia ].
  - repeat split; intros H; tier Hgen.
Qed.

Lemma getKoefVeku_schedule_witness :
  getKoefVeku "2024" (Int 40) = 0.80 /\ getKoefVeku "2025" (Int 200) = 1.50.
Proof.
  split.
  - apply (proj1 (getKoefVeku_schedule "2024" 2024 40 eq_refl)
             (mkUprava 36 (Some 72%Z) 0.80)).
    + cbn. tauto.
    + cbn. lia.
    + intros e [= <-]. lia.
  - apply (proj2 (proj2 (getKoefVeku_schedule "2025" 2025 200 eq_refl))).
    + lia.
    + lia.
Defined.

(** ** C1: the tax of a vehicle *)

Ltac if_cases :=
  repeat match goal with
  | |- context [if ?c then _ else _] => destruct c
  end.

Lemma getZakladnaSadzba_range kat objem hmotnost :
  In (getZakladnaSadzba kat objem hmotnost) SADZBY.
Proof.
  unfold getZakladnaSadzba.
  destruct (_ || _).
  - cbn. if_cases; cbn; tauto.
  - destruct (startsWith kat "O").
    + cbn. if_cases; cbn; tauto.
    + cbn. if_cases; cbn; tauto.
Qed.

Lemma getKoefVeku_range rok_value vek :
  In (getKoefVeku rok_value vek) KOEFICIENTY.
Proof.
  unfold getKoefVeku. destruct (igeb _ _); cbn; if_cases; cbn; tauto.
Qed.

(** Halving twice is exact on every rate the tables can produce. *)
Lemma halved_twice z k :
  In z SADZBY -> In k KOEFICIENTY ->
  z * 0.5 * 0.5 = z * 0.25 /\ z * k * 0.5 * 0.5 = z * k * 0.25.
Proof.
  intros Hz Hk. cbn in Hz, Hk.
  repeat destruct Hz as [<-|Hz]; try easy;
    repeat destruct Hk as [<-|Hk]; try easy; split; reflexivity.
Qed.

(** C1.  After [prepocitatVsetky] every vehicle carries: the base rate; the
    age; the adjusted rate, which is the base rate, times the age coefficient
    when the category is no trailer one (O...) and the age is positive, halved when
    the vehicle is a hybrid or runs on gas, halved again for combined
    transport, so a quarter of it with both; and the tax, the adjusted rate
    over 12 times the months held. *)
Theorem tax_formula (st : Stranka) (i : nat) (v : Vozidlo) :
  nth_error (vozidla st) i = Some v ->
  let baseRate := getZakladnaSadzba (kategoria v) (objem v) (hmotnost v) in
  let age := vypocitajVek (rok st) (datum v) in
  let ageCoef := getKoefVeku (rok st) age in
  let trailer := startsWith (kategoria v) "O" in
  let aged := if negb trailer && igtb age (Int 0)
              then baseRate * ageCoef else baseRate in
  let eco := hybrid v || plyn v in
  let adjustedRate := match eco, kombi v with
                      | false, false => aged
                      | true, false | false, true => aged * 0.5
                      | true, true => aged * 0.25
                      end in
  exists v',
    nth_error (vozidla (prepocitatVsetky st)) i = Some v'
    /\ zakladnaSadzba v' = Num baseRate
    /\ vek v' = Some age
    /\ sadzba v' = Num adjustedRate
    /\ dan v' = Num (adjustedRate / 12 * ToNumber (mesiace v))
    /\ (eco = true -> kombi v = true -> trailer = false -> igtb age (Int 0) = true ->
        sadzba v' = Num (baseRate * ageCoef * 0.25)).
Proof.
  intros Hv baseRate age ageCoef trailer aged eco adjustedRate.
  exists (prepocitajVozidlo (rok st) v).
  assert (Hq := halved_twice baseRate ageCoef
                  (getZakladnaSadzba_range _ _ _) (getKoefVeku_range _ _)).
  destruct Hq as [Hq1 Hq2].
  assert (Hs : sadzba (prepocitajVozidlo (rok st) v) = Num adjustedRate).
  { unfold prepocitajVozidlo. cbn [sadzba].
    fold baseRate age ageCoef trailer eco. subst adjustedRate aged.
    rewrite (andb_comm (negb trailer)).
    destruct eco, (kombi v), (igtb age (Int 0) && negb trailer);
      try reflexivity; now f_equal. }
  split; [|split; [|split; [|split; [|split]]]].
  - cbn [prepocitatVsetky vozidla]. now rewrite nth_error_map, Hv.
  - reflexivity.
  - reflexivity.
  - exact Hs.
  - unfold prepocitajVozidlo in *. cbn [dan sadzba] in *.
    injection Hs as Hs. now rewrite Hs.
  - intros He Hk Ht Ha. rewrite Hs. subst adjustedRate aged.
    now rewrite He, Hk, Ht, Ha.
Qed.

Lemma tax_formula_witness :
  exists v',
    nth_error (vozidla (prepocitatVsetky
      (mkStranka false "2020123456" "" "" "" "" "" "2024" [octavia]))) 0 = Some v'
    /\ zakladnaSadzba v' = Num 115
    /\ vek v' = Some (Int 189)
    /\ sadzba v' = Num 34.5
    /\ dan v' = Num 34.5.
Proof.
  destruct (tax_formula
              (mkStranka false "2020123456" "" "" "" "" "" "2024" [octavia])
              0 octavia eq_refl) as (v' & H1 & H2 & H3 & H4 & H5 & _).
  exists v'. repeat split; assumption.
Defined.

(** ** C7: recomputing twice *)

Lemma prepocitajVozidlo_idempotent rok_value v :
  prepocitajVozidlo rok_value (prepocitajVozidlo rok_value v)
  = prepocitajVozidlo rok_value v.
Proof. reflexivity. Qed.

(** C7.  With the vehicles' entered fields and the tax year unchanged, a
    second [prepocitatVsetky] leaves the page, and so the base rate, the age,
    the adjusted rate and the tax of every vehicle, as the first one left it. *)
Theorem prepocitatVsetky_idempotent (st : Stranka) :
  prepocitatVsetky (prepocitatVsetky st) = prepocitatVsetky st
  /\ forall i,
       let once := nth_error (vozidla (prepocitatVsetky st)) i in
       let twice := nth_error (vozidla (prepocitatVsetky (prepocitatVsetky st))) i in
       option_map zakladnaSadzba twice = option_map zakladnaSadzba once
       /\ option_map vek twice = option_map vek once
       /\ option_map sadzba twice = option_map sadzba once
       /\ option_map dan twice = option_map dan once.
Proof.
  assert (H : prepocitatVsetky (prepocitatVsetky st) = prepocitatVsetky st).
  { unfold prepocitatVsetky. cbn [vozidla rok]. f_equal.
    rewrite map_map. apply map_ext. intros v.
    apply prepocitajVozidlo_idempotent. }
  split; [exact H|]. intros i. cbn zeta. now rewrite H.
Qed.

(** ** C10: the eco halving is applied once *)

(** C10.  All other inputs equal, a vehicle marked both hybrid and gas gets
    the adjusted rate and the tax of a vehicle marked with one of the two,
    in the recomputation as in the dialog: the two marks do not stack. *)
Theorem eco_halving_once (rok_value : string) (v : Vozidlo) (f : Formular) :
  (forall h p, h || p = true ->
     sadzba (prepocitajVozidlo rok_value (s_pohonom v h p))
       = sadzba (prepocitajVozidlo rok_value (s_pohonom v true true))
     /\ dan (prepocitajVozidlo rok_value (s_pohonom v h p))
       = dan (prepocitajVozidlo rok_value (s_pohonom v true true)))
  /\ (forall h p, h || p = true ->
     r_sadzba (prepocitat rok_value (formular_s_pohonom f h p))
       = r_sadzba (prepocitat rok_value (formular_s_pohonom f true true))
     /\ r_dan (prepocitat rok_value (formular_s_pohonom f h p))
       = r_dan (prepocitat rok_value (formular_s_pohonom f true true))).
Proof.
  split; intros h p Hhp; unfold prepocitajVozidlo, prepocitat;
    cbn [sadzba dan r_sadzba r_dan s_pohonom formular_s_pohonom
         hybrid plyn kombi kategoria objem hmotnost datum mesiace
         vHybrid vPlyn vKombi vKategoria vObjem vHmotnost vDatum vMesiace];
    rewrite Hhp; split; reflexivity.
Qed.

Lemma eco_halving_once_witness :
  sadzba (prepocitajVozidlo "2024" (s_pohonom octavia true false))
    = sadzba (prepocitajVozidlo "2024" (s_pohonom octavia true true))
  /\ sadzba (prepocitajVozidlo "2024" (s_pohonom octavia false true))
    = sadzba (prepocitajVozidlo "2024" (s_pohonom octavia true true)).
Proof.
  pose proof (eco_halving_once "2024" octavia
                (mkFormular "" 0 0 "" 0 false false false)) as [H _].
  split.
  - apply (H true false eq_refl).
  - apply (H false true eq_refl).
Defined.

(** ** C2: the export refuses an empty tax id and an empty fleet *)

Lemma append_assoc (a b c : string) : (a ++ b) ++ c = a ++ b ++ c.
Proof. induction a as [|x a IH]; cbn; [reflexivity | now rewrite IH]. Qed.

(** C2.  With an empty tax id, or with no vehicle, [exportXML] only reports
    the missing input: nothing is downloaded, nothing is sent to the server
    and no document text is built. *)
Theorem exportXML_refuses (st : Stranka) (server : Poziadavka -> Odpoved) :
  dic st = "" \/ vozidla st = [] ->
  (dic st = "" -> exportXML st server = [Alert Zadajte_DIC])
  /\ (dic st <> "" -> vozidla st = [] ->
      exportXML st server = [Alert Pridajte_vozidlo])
  /\ existsb emits (exportXML st server) = false
  /\ forall subor obsah, ~ In (Download subor obsah) (exportXML st server).
Proof.
  intros H. unfold exportXML.
  destruct (dic st) as [|c d] eqn:Hd.
  - repeat split; try easy. intros ? ? [?|[]]. discriminate.
  - destruct H as [H|H]; [discriminate|]. rewrite H.
    repeat split; try easy. intros ? ? [?|[]]. discriminate.
Qed.

Lemma exportXML_refuses_witness :
  exportXML (mkStranka false "" "Firma" "" "" "" "" "2024" [octavia])
            (fun _ => Ok "<dokument/>") = [Alert Zadajte_DIC]
  /\ exportXML (mkStranka true "2020123456" "Firma" "" "" "" "" "2024" [])
               (fun _ => Ok "<dokument/>") = [Alert Pridajte_vozidlo].
Proof.
  split.
  - apply (exportXML_refuses
             (mkStranka false "" "Firma" "" "" "" "" "2024" [octavia])
             (fun _ => Ok "<dokument/>") (or_introl eq_refl)).
    reflexivity.
  - apply (exportXML_refuses
             (mkStranka true "2020123456" "Firma" "" "" "" "" "2024" [])
             (fun _ => Ok "<dokument/>") (or_intror eq_refl)).
    + discriminate.
    + reflexivity.
Defined.

(** ** C8: the totals in the body of the declaration *)

(** The hundredths [toFixed2] prints for a double [m * 2^e] with [e < 0] are
    the nearest integer to a hundred times its value, the upper one on a tie. *)
Lemma toFixed2_nearest (m : positive) (e : Z) :
  (e < 0)%Z ->
  let n := ((Zpos m * 200 + 2 ^ (- e)) / 2 ^ (1 - e))%Z in
  (- 2 ^ (- e) < n * 2 ^ (1 - e) - Zpos m * 200 <= 2 ^ (- e))%Z.
Proof.
  intros He n.
  assert (Hp : (0 < 2 ^ (- e))%Z) by (apply Z.pow_pos_nonneg; lia).
  assert (Hd : (2 ^ (1 - e) = 2 * 2 ^ (- e))%Z).
  { replace (1 - e)%Z with (Z.succ (- e)) by lia. apply Z.pow_succ_r. lia. }
  subst n. rewrite Hd.
  pose proof (Z.mul_div_le (Zpos m * 200 + 2 ^ (- e)) (2 * 2 ^ (- e))%Z).
  pose proof (Z.mul_succ_div_gt (Zpos m * 200 + 2 ^ (- e)) (2 * 2 ^ (- e))%Z).
  nia.
Qed.

(** C8.  The client-side export of a page with a tax id and at least one
    vehicle downloads one document; after the header its body holds the
    number of vehicles under [r35] and, under [r36], [r38] and [r40] alike,
    the sum of the vehicles' taxes in the two-decimal form of [toFixed(2)]. *)
Theorem exportXML_totals (st : Stranka) (server : Poziadavka -> Odpoved) :
  USE_API st = false -> dic st <> "" -> vozidla st <> [] ->
  let pocet := decimal (Z.of_nat (List.length (vozidla st))) in
  let suma := toFixed2 (fold_left (fun sum v => sum + or_else (dan v) 0)
                                  (vozidla st) 0) in
  exportXML st server
    = [ Download (subor st)
          (prolog ++ hlavicka st ++
           "<telo>" ++ LF ++
           "<r35>" ++ pocet ++ "</r35>" ++ LF ++
           "<r36>" ++ suma ++ "</r36>" ++ LF ++
           "<r38>" ++ suma ++ "</r38>" ++ LF ++
           "<r40>" ++ suma ++ "</r40>" ++ LF ++
           "</telo>" ++ LF ++ "</dokument>");
        Log (subor st) true ].
Proof.
  intros Hapi Hd Hv. cbv zeta. unfold exportXML.
  destruct (dic st) as [|c d] eqn:Ed; [easy|].
  destruct (vozidla st) as [|v vs] eqn:Ev; [easy|].
  rewrite Hapi.
  unfold xml, telo, celkovaDan. rewrite Ev.
  now rewrite !append_assoc.
Qed.

Lemma exportXML_totals_witness :
  exportXML firma (fun _ => Zlyhanie "offline")
    = [ Download "dmv_2020123456_2024.xml"
          (prolog ++ hlavicka firma ++
           "<telo>" ++ LF ++
           "<r35>2</r35>" ++ LF ++
           "<r36>103.50</r36>" ++ LF ++
           "<r38>103.50</r38>" ++ LF ++
           "<r40>103.50</r40>" ++ LF ++
           "</telo>" ++ LF ++ "</dokument>");
        Log "dmv_2020123456_2024.xml" true ].
Proof.
  apply (exportXML_totals firma (fun _ => Zlyhanie "offline") eq_refl).
  - discriminate.
  - discriminate.
Defined.

(** ** C5: free text in the exported document *)

(** C5 fails on the client-side export: the company name [A & B] reaches the
    document as it was typed, with its [&] bare, and no entity is written. *)
Theorem company_name_not_escaped :
  nazov firma = "A & B"
  /\ exportXML firma server_offline
     = [Download "dmv_2020123456_2024.xml" (xml firma);
        Log "dmv_2020123456_2024.xml" true]
  /\ index 0 "<poObchodneMeno><riadok>A & B</riadok></poObchodneMeno>" (xml firma)
     = Some 258%nat
  /\ index 0 "&amp;" (xml firma) = None.
Proof. repeat split; vm_compute; reflexivity. Qed.

(** The three free-text fields are copied into the header unchanged. *)
Lemma hlavicka_verbatim (st : Stranka) :
  exists a b c d,
    hlavicka st = a ++ "<riadok>" ++ nazov st ++ "</riadok>" ++ b
                    ++ "<ulica>" ++ ulica st ++ "</ulica>" ++ c
                    ++ "<obec>" ++ obec st ++ "</obec>" ++ d.
Proof.
  exists ("<hlavicka>" ++ LF ++
          "<fo>0</fo><po>1</po><zahranicna>0</zahranicna>" ++ LF ++
          "<dic>" ++ dic st ++ "</dic>" ++ LF ++
          "<typDP><rdp>1</rdp><odp>0</odp><ddp>0</ddp></typDP>" ++ LF ++
          "<zdanovacieObdobie><od>1.1." ++ rok st ++ "</od><do>31.12." ++ rok st
          ++ "</do></zdanovacieObdobie>" ++ LF ++ "<poObchodneMeno>"),
         ("</poObchodneMeno>" ++ LF ++ "<sidlo>" ++ LF),
         (LF ++ "<cislo>" ++ cislo st ++ "</cislo>" ++ LF ++
          "<psc>" ++ psc st ++ "</psc>" ++ LF),
         (LF ++ "<stat>Slovensk" ++ a_acute ++ " republika</stat>" ++ LF ++
          "</sidlo>" ++ LF ++ "</hlavicka>" ++ LF).
  unfold hlavicka. now rewrite !append_assoc.
Qed.

(** ** C6: the age of a vehicle *)

Lemma DayFromYear_step y :
  (DayFromYear (y + 1) = DayFromYear y + DaysInYear y)%Z.
Proof.
  unfold DayFromYear, DaysInYear.
  repeat match goal with
  | |- context [(?a =? ?b)%Z] => destruct (Z.eqb_spec a b)
  end; cbn [negb]; Z.div_mod_to_equations; lia.
Qed.

Lemma DaysInYear_leap y : (DaysInYear y = 365 + InLeapYear y)%Z.
Proof.
  unfold InLeapYear. destruct (Z.eqb_spec (DaysInYear y) 366) as [E|E]; [lia|].
  revert E. unfold DaysInYear. if_cases; lia.
Qed.

Lemma InLeapYear_cases y : InLeapYear y = 0%Z \/ InLeapYear y = 1%Z.
Proof. unfold InLeapYear. if_cases; auto. Qed.

Lemma DayFromYear_bounds y :
  (146097 * (y - 1970) - 506 <= 400 * DayFromYear y
   <= 146097 * (y - 1970) + 589)%Z.
Proof. unfold DayFromYear. Z.div_mod_to_equations. lia. Qed.

(** [YearFromDay] finds the year a day falls in. *)
Lemma YearFromDay_spec y day :
  (DayFromYear y <= day < DayFromYear (y + 1))%Z -> YearFromDay day = y.
Proof.
  intros H. unfold YearFromDay.
  set (y0 := (1970 + day * 400 / 146097)%Z).
  pose proof (DayFromYear_bounds y) as B0.
  pose proof (DayFromYear_bounds (y + 1)) as B1.
  assert (Hy0 : (y0 = y - 1 \/ y0 = y \/ y0 = y + 1)%Z).
  { subst y0. Z.div_mod_to_equations. lia. }
  pose proof (DayFromYear_step y) as S0.
  pose proof (DayFromYear_step (y + 1)) as S1.
  pose proof (DaysInYear_leap y) as L0. pose proof (InLeapYear_cases y).
  pose proof (DaysInYear_leap (y + 1)) as L1. pose proof (InLeapYear_cases (y + 1)).
  destruct Hy0 as [-> | [-> | ->]].
  - replace (y - 1 + 1)%Z with y by lia.
    destruct (Z.leb_spec (DayFromYear y) day); [reflexivity | lia].
  - destruct (Z.leb_spec (DayFromYear (y + 1)) day); [lia|].
    destruct (Z.leb_spec (DayFromYear y) day); [reflexivity | lia].
  - destruct (Z.leb_spec (DayFromYear (y + 1 + 1)) day); [lia|].
    destruct (Z.leb_spec (DayFromYear (y + 1)) day); lia.
Qed.

Lemma truncate_inject z : truncate (inject_Z z) = z.
Proof. unfold truncate. cbn. apply Z.quot_1_r. Qed.

Lemma truncate_pred z : truncate (inject_Z z - 1) = (z - 1)%Z.
Proof. unfold truncate. cbn. rewrite Z.quot_1_r. lia. Qed.

(** A date of the calendar, given by its numbers, is stored as it is: the
    year and the month (counted from 0) are read back. *)
Lemma new_Date_fields (y m d : Z) (month : Q) :
  (100 <= y <= 270000)%Z -> (1 <= m <= 12)%Z -> (1 <= d <= DaysInMonth y m)%Z ->
  truncate month = (m - 1)%Z ->
  let date := new_Date (Finite (inject_Z y)) (Finite month) (Finite (inject_Z d)) in
  getFullYear date = Int y /\ getMonth date = Int (m - 1).
Proof.
  intros Hy Hm Hd Hq. cbv zeta. unfold new_Date.
  rewrite !truncate_inject, Hq.
  destruct (Z.leb_spec 0 y), (Z.leb_spec y 99); try lia. cbn [andb].
  replace ((m - 1) / 12)%Z with 0%Z by (Z.div_mod_to_equations; lia).
  replace ((m - 1) mod 12)%Z with (m - 1)%Z by (Z.div_mod_to_equations; lia).
  rewrite Z.add_0_r.
  set (day := (DayFromYear y + month_start (m - 1) (InLeapYear y) + d - 1)%Z).
  pose proof (DayFromYear_bounds y) as B.
  pose proof (DayFromYear_step y) as S.
  pose proof (DaysInYear_leap y) as L.
  pose proof (InLeapYear_cases y) as C.
  assert (Hm' : (m = 1 \/ m = 2 \/ m = 3 \/ m = 4 \/ m = 5 \/ m = 6 \/ m = 7
                 \/ m = 8 \/ m = 9 \/ m = 10 \/ m = 11 \/ m = 12)%Z) by lia.
  assert (Hin : (DayFromYear y <= day < DayFromYear (y + 1))%Z
                /\ (month_start (m - 1) (InLeapYear y) <= day - DayFromYear y
                    < month_start (m - 1) (InLeapYear y) + DaysInMonth y m)%Z).
  { subst day. unfold DaysInMonth in *.
    destruct C as [E | E]; rewrite E in *;
      repeat destruct Hm' as [-> | Hm']; try subst m; cbn in Hd |- *; lia. }
  destruct Hin as [Hyear Hmonth].
  destruct (Z.leb_spec (Z.abs day) 100000000); [|lia].
  cbn [getFullYear getMonth]. unfold MonthFromDay.
  rewrite (YearFromDay_spec y day Hyear). split; [reflexivity|]. f_equal.
  unfold DaysInMonth in *.
  destruct C as [E | E]; rewrite E in *;
    repeat destruct Hm' as [-> | Hm']; try subst m; cbn in Hmonth |- *;
    z_cases; lia.
Qed.

(** The part of C6 the code keeps: no date, or a text that is not three parts
    between dots, has the age 0. *)
Lemma vypocitajVek_guards (rok_value : string) :
  vypocitajVek rok_value None = Int 0
  /\ vypocitajVek rok_value (Some "") = Int 0
  /\ forall s, List.length (split "." s) <> 3%nat ->
       vypocitajVek rok_value (Some s) = Int 0.
Proof.
  repeat split. intros s Hs. unfold vypocitajVek.
  destruct s as [|c s']; [reflexivity|].
  destruct (split "." (String c s')) as [|p0 [|p1 [|p2 [|p3 rest]]]];
    try reflexivity. now cbn in Hs.
Qed.



(** C6 fails on a text of three parts that are not numbers: the age is NaN,
    not 0, and that is what the recomputation stores in the vehicle. *)
Theorem vypocitajVek_not_a_date :
  vypocitajVek "2024" (Some "15.marec.2020") = NaNi
  /\ vypocitajVek "2024" (Some "15.marec.2020") <> Int 0
  /\ vek (prepocitajVozidlo "2024"
            (mkVozidlo "BA123AB" "M1" (Some "15.marec.2020") None (Num 1400)
                       Unset (Num 12) false false false Unset Unset None Unset))
     = Some NaNi.
Proof. repeat split. discriminate. Qed.

(** * Further properties of the page script *)

(** ** The age of a vehicle *)

Lemma split_length (sep : ascii) (s : string) :
  List.length (split sep s) = S (pocet sep s).
Proof.
  induction s as [|c s IH]; [reflexivity|].
  cbn [split pocet]. destruct (Ascii.eqb c sep).
  - cbn. now rewrite IH.
  - destruct (split sep s) as [|first others]; [discriminate|].
    cbn in IH |- *. exact IH.
Qed.

(** X1.  Whatever the tax year, a date text that does not hold exactly two
    dots has the age 0, and so has a vehicle without a date. *)
Theorem vypocitajVek_dots (rok_value s : string) :
  pocet "." s <> 2%nat ->
  vypocitajVek rok_value (Some s) = Int 0
  /\ vypocitajVek rok_value None = Int 0.
Proof.
  intros H. split; [|reflexivity].
  apply vypocitajVek_guards. rewrite split_length. lia.
Qed.

Lemma vypocitajVek_dots_witness :
  vypocitajVek "2024" (Some "2020-03-15") = Int 0
  /\ vypocitajVek "2024" (Some "15.3.2020.") = Int 0.
Proof.
  split.
  - apply (vypocitajVek_dots "2024" "2020-03-15"). cbn. lia.
  - apply (vypocitajVek_dots "2024" "15.3.2020."). cbn. lia.
Defined.

Lemma new_Date_century (y : Z) (month date : number) :
  (0 <= y <= 99)%Z ->
  new_Date (Finite (inject_Z y)) month date
  = new_Date (Finite (inject_Z (1900 + y))) month date.
Proof.
  intros H. unfold new_Date. rewrite !truncate_inject.
  destruct month as [| |m]; try reflexivity.
  destruct date as [| |d]; try reflexivity.
  destruct (Z.leb_spec 0 y), (Z.leb_spec y 99); try lia.
  destruct (Z.leb_spec (1900 + y) 99); try lia.
  now rewrite andb_false_r.
Qed.



(** X3.  The age is never a negative number: it is NaN or an integer from 0
    on, for every text and every tax year. *)
Theorem vypocitajVek_not_negative (rok_value : string) (datumStr : option string) :
  vypocitajVek rok_value datumStr = NaNi
  \/ exists n, vypocitajVek rok_value datumStr = Int n /\ (0 <= n)%Z.
Proof.
  unfold vypocitajVek.
  destruct datumStr as [[|c s]|]; try (right; exists 0%Z; split; [reflexivity|lia]).
  destruct (split "." (String c s)) as [|p0 [|p1 [|p2 [|p3 rest]]]];
    try (right; exists 0%Z; split; [reflexivity|lia]).
  match goal with |- Math_max _ ?x = _ \/ _ => destruct x as [|z] end.
  - now left.
  - right. exists (Z.max 0 z). split; [reflexivity | lia].
Qed.

(** ** Rates *)

Lemma nasobok_range z k :
  In z SADZBY -> In k KOEFICIENTY ->
  forall a, In a [z * k; z * k * 0.5; z * k * 0.5 * 0.5] -> In a UPRAVENE.
Proof.
  intros Hz Hk a Ha. unfold UPRAVENE.
  apply in_flat_map. exists z. split; [exact Hz|].
  apply in_flat_map. exists (z * k). split; [|exact Ha].
  right. apply in_map_iff. now exists k.
Qed.

Lemma zaklad_range z :
  In z SADZBY ->
  forall a, In a [z; z * 0.5; z * 0.5 * 0.5] -> In a UPRAVENE.
Proof.
  intros Hz a Ha. unfold UPRAVENE.
  apply in_flat_map. exists z. split; [exact Hz|].
  apply in_flat_map. exists z. split; [now left | exact Ha].
Qed.

(** The adjusted rate a recomputation stores is one of [UPRAVENE]. *)
Lemma sadzba_range rok_value v :
  exists s, sadzba (prepocitajVozidlo rok_value v) = Num s /\ In s UPRAVENE.
Proof.
  unfold prepocitajVozidlo. cbn [sadzba]. eexists. split; [reflexivity|].
  pose proof (getZakladnaSadzba_range (kategoria v) (objem v) (hmotnost v)) as Hz.
  pose proof (getKoefVeku_range rok_value (vypocitajVek rok_value (datum v))) as Hk.
  destruct (igtb _ _ && negb _);
    [ eapply nasobok_range; [exact Hz | exact Hk |]
    | eapply zaklad_range; [exact Hz |] ];
    destruct (hybrid v || plyn v), (kombi v); cbn; tauto.
Qed.

(** X4.  Whatever a vehicle holds (an unknown category, no size, a date that
    cannot be read), a recomputation gives it a base rate from 50 to 295 and
    an adjusted rate from 9.375 to 442.5: neither is ever NaN, zero or
    negative. *)
Theorem rates_bounded (rok_value : string) (v : Vozidlo) :
  exists z s,
    zakladnaSadzba (prepocitajVozidlo rok_value v) = Num z
    /\ sadzba (prepocitajVozidlo rok_value v) = Num s
    /\ (50 <=? z) = true /\ (z <=? 295) = true
    /\ (9.375 <=? s) = true /\ (s <=? 442.5) = true.
Proof.
  destruct (sadzba_range rok_value v) as (s & Hs & Hin).
  exists (getZakladnaSadzba (kategoria v) (objem v) (hmotnost v)), s.
  split; [reflexivity|]. split; [exact Hs|].
  pose proof (getZakladnaSadzba_range (kategoria v) (objem v) (hmotnost v)) as Hz.
  assert (Bz : forallb (fun z => (50 <=? z) && (z <=? 295)) SADZBY = true)
    by reflexivity.
  assert (Bs : forallb (fun s => (9.375 <=? s) && (s <=? 442.5)) UPRAVENE = true)
    by (vm_compute; reflexivity).
  rewrite forallb_forall in Bz, Bs.
  apply Bz in Hz. apply Bs in Hin.
  apply andb_prop in Hz as [? ?]. apply andb_prop in Hin as [? ?]. auto.
Qed.

Lemma startsWith_O_not_objemova kat :
  startsWith kat "O" = true -> objemova kat = false.
Proof.
  intros H. apply not_true_iff_false. rewrite objemova_iff.
  intros [-> | ->]; discriminate.
Qed.

(** X5.  A trailer category is rated by its name alone: O1 50, O2 115, O3 180,
    O4 295, and every other name that starts with O 50, whatever displacement
    and mass the vehicle carries. *)
Theorem trailer_rates (kat : string) (objem hmotnost : field) :
  startsWith kat "O" = true ->
  getZakladnaSadzba kat objem hmotnost = getZakladnaSadzba kat Unset Unset
  /\ (kat = "O1" -> getZakladnaSadzba kat objem hmotnost = 50)
  /\ (kat = "O2" -> getZakladnaSadzba kat objem hmotnost = 115)
  /\ (kat = "O3" -> getZakladnaSadzba kat objem hmotnost = 180)
  /\ (kat = "O4" -> getZakladnaSadzba kat objem hmotnost = 295)
  /\ (kat <> "O1" -> kat <> "O2" -> kat <> "O3" -> kat <> "O4" ->
      getZakladnaSadzba kat objem hmotnost = 50).
Proof.
  intros HO. pose proof (startsWith_O_not_objemova kat HO) as Hn.
  assert (E : forall o h, getZakladnaSadzba kat o h = or_else (lookup SADZBY_O kat) 50).
  { intros o h. unfold getZakladnaSadzba. fold (objemova kat). now rewrite Hn, HO. }
  split; [now rewrite !E|].
  repeat split; try (intros ->; reflexivity).
  intros H1 H2 H3 H4. rewrite E. unfold SADZBY_O. cbn [lookup].
  apply not_eq_sym in H1, H2, H3, H4.
  apply String.eqb_neq in H1, H2, H3, H4.
  now rewrite H1, H2, H3, H4.
Qed.

Lemma trailer_rates_witness :
  getZakladnaSadzba "O3" (Num 1400) (Num 3500) = 180
  /\ getZakladnaSadzba "O9" (Num 1400) (Num 3500) = 50.
Proof.
  split.
  - apply (trailer_rates "O3" (Num 1400) (Num 3500) eq_refl). reflexivity.
  - apply (trailer_rates "O9" (Num 1400) (Num 3500) eq_refl); discriminate.
Defined.

(** Two doubles are comparable as soon as each takes part in a comparison
    that holds. *)
Lemma SFleb_or_SFltb a x c :
  SFltb a x = true -> SFleb c c = true ->
  SFleb x c = true \/ SFltb c x = true.
Proof.
  unfold SFleb, SFltb.
  destruct a as [[]|[]| |[] ma ea], x as [[]|[]| |[] mx ex],
           c as [[]|[]| |[] mc ec];
    cbn; try easy; auto; cmp_cases; cbn; try easy; auto; try lia.
Qed.

Lemma leb_or_ltb a x c :
  (a <? x) = true -> (c <=? c) = true ->
  (x <=? c) = true \/ (c <? x) = true.
Proof. rewrite !leb_spec, !ltb_spec. apply SFleb_or_SFltb. Qed.

Lemma najdi_pasmo_some tab x r :
  najdi_pasmo tab x = Some r ->
  exists s, In s tab /\ (p_od s <? x) = true /\ (x <=? p_do s) = true
            /\ r = p_sadzba s.
Proof.
  induction tab as [|t rest IH]; [discriminate|]. cbn.
  destruct ((p_od t <? x) && (x <=? p_do t)) eqn:Hm.
  - intros [= <-]. apply andb_prop in Hm as [? ?]. exists t. auto.
  - intros H. destruct (IH H) as (s & ? & ? & ? & ?). exists s. auto.
Qed.

(** In a table whose tiers follow each other with rates that do not fall, a
    larger measure never finds a smaller rate. *)
Lemma najdi_pasmo_monotone tab x y r1 r2 :
  chained tab = true -> rastuce tab = true -> (x <=? y) = true ->
  najdi_pasmo tab x = Some r1 -> najdi_pasmo tab y = Some r2 ->
  (r1 <=? r2) = true.
Proof.
  induction tab as [|t rest IH]; intros Hc Hr Hxy H1 H2; [discriminate|].
  cbn in Hc, Hr. apply andb_prop in Hc as [Hc Hc'].
  apply andb_prop in Hr as [Hr Hr']. apply andb_prop in Hr as [Ht Hr].
  rewrite forallb_forall in Hc, Hr.
  cbn in H1, H2.
  destruct ((p_od t <? x) && (x <=? p_do t)) eqn:Mx;
    destruct ((p_od t <? y) && (y <=? p_do t)) eqn:My.
  - injection H1 as <-. injection H2 as <-. exact Ht.
  - injection H1 as <-.
    destruct (najdi_pasmo_some _ _ _ H2) as (s & Hs & _ & _ & ->). now apply Hr.
  - exfalso. destruct (najdi_pasmo_some _ _ _ H1) as (s & Hs & Hlo & _ & _).
    apply andb_prop in My as [_ My].
    apply (ltb_leb_false _ _ Hlo).
    apply (leb_trans _ _ _ Hxy). apply (leb_trans _ _ _ My). now apply Hc.
  - now apply IH.
Qed.

Lemma SFltb_SFleb_trans a x y :
  SFltb a x = true -> SFleb x y = true -> SFltb a y = true.
Proof.
  unfold SFleb, SFltb.
  destruct a as [[]|[]| |[] ma ea], x as [[]|[]| |[] mx ex],
           y as [[]|[]| |[] my ey];
    cbn; try easy; cmp_cases; cbn; try easy; try lia.
Qed.

Lemma ltb_leb_trans a x y :
  (a <? x) = true -> (x <=? y) = true -> (a <? y) = true.
Proof. rewrite leb_spec, !ltb_spec. apply SFltb_SFleb_trans. Qed.

Lemma nothing_above_infinity x : (infinity <? x) = true -> False.
Proof.
  rewrite ltb_spec.
  destruct (Prim2SF x) as [[]|[]| |[] m e]; vm_compute; discriminate.
Qed.

Ltac next_tier H0 x c :=
  let E := fresh "E" in
  destruct (x <=? c) eqn:E; [eauto|];
  destruct (leb_or_ltb 0 x c H0 eq_refl) as [? | ->]; [congruence|];
  cbn [andb].

(** Every positive displacement lies in a tier of [SADZBY_M1]. *)
Lemma SADZBY_M1_total x :
  (0 <? x) = true -> exists r, najdi_pasmo SADZBY_M1 x = Some r.
Proof.
  intros H0. unfold SADZBY_M1. cbn [najdi_pasmo p_od p_do p_sadzba].
  rewrite H0. cbn [andb].
  next_tier H0 x 150. next_tier H0 x 900. next_tier H0 x 1200.
  next_tier H0 x 1500. next_tier H0 x 2000. next_tier H0 x 3000.
  destruct (x <=? infinity) eqn:Einf; [eauto|].
  destruct (leb_or_ltb 0 x infinity H0 eq_refl) as [? | Hinf]; [congruence|].
  destruct (nothing_above_infinity x Hinf).
Qed.

(** X6.  For the categories M1 and L a larger displacement never has a
    smaller base rate, from the first cm3 on. *)
Theorem zakladna_sadzba_monotone (kat : string) (x y : float) (h1 h2 : field) :
  kat = "M1" \/ kat = "L" -> (0 <? x) = true -> (x <=? y) = true ->
  (getZakladnaSadzba kat (Num x) h1 <=? getZakladnaSadzba kat (Num y) h2) = true.
Proof.
  intros Hk H0 Hxy. apply objemova_iff in Hk.
  rewrite !(getZakladnaSadzba_objem kat _ _ Hk). cbn [ToNumber].
  pose proof (ltb_leb_trans _ _ _ H0 Hxy) as H0y.
  destruct (SADZBY_M1_total x H0) as [r1 E1].
  destruct (SADZBY_M1_total y H0y) as [r2 E2].
  rewrite E1, E2.
  now apply (najdi_pasmo_monotone SADZBY_M1 x y).
Qed.

Lemma zakladna_sadzba_monotone_witness :
  (getZakladnaSadzba "M1" (Num 1199) Unset
   <=? getZakladnaSadzba "M1" (Num 1201) Unset) = true.
Proof.
  apply (zakladna_sadzba_monotone "M1" 1199 1201 Unset Unset
           (or_introl eq_refl) eq_refl eq_refl).
Defined.

(** ** The age coefficient *)

Ltac z_prune :=
  repeat match goal with
  | |- context [(?a <=? ?b)%Z] =>
      destruct (Z.leb_spec a b); try lia; cbn [andb]
  | |- context [(?a <? ?b)%Z] =>
      destruct (Z.ltb_spec a b); try lia; cbn [andb]
  end.

Lemma najdi_upravu_monotone upravy a b :
  upravy = UPRAVA_2024 \/ upravy = UPRAVA_2025 ->
  (0 <= a <= b)%Z ->
  exists ka kb, najdi_upravu upravy (Int a) = Some ka
                /\ najdi_upravu upravy (Int b) = Some kb
                /\ (ka <=? kb) = true.
Proof.
  intros [-> | ->] H;
    cbn [najdi_upravu UPRAVA_2024 UPRAVA_2025 u_od u_do u_koef igeb below];
    z_prune; do 2 eexists; repeat split.
Qed.

(** X7.  Under one tax year an older vehicle never has a smaller age
    coefficient, and at every age the coefficient of a tax year from 2025 on
    is larger than that of an earlier tax year. *)
Theorem getKoefVeku_monotone (rok_value stary novy : string) (y1 y2 a b : Z) :
  (0 <= a <= b)%Z ->
  parseInt stary = Int y1 -> parseInt novy = Int y2 -> (y1 < 2025 <= y2)%Z ->
  (getKoefVeku rok_value (Int a) <=? getKoefVeku rok_value (Int b)) = true
  /\ (getKoefVeku stary (Int a) <? getKoefVeku novy (Int a)) = true.
Proof.
  intros Hab H1 H2 Hy. split.
  - unfold getKoefVeku.
    destruct (najdi_upravu_monotone
                (if igeb (parseInt rok_value) (Int 2025)
                 then UPRAVA_2025 else UPRAVA_2024) a b)
      as (ka & kb & -> & -> & H); auto.
    destruct (igeb _ _); auto.
  - unfold getKoefVeku. rewrite H1, H2. cbn [igeb].
    destruct (Z.leb_spec 2025 y1), (Z.leb_spec 2025 y2); try lia.
    cbn [najdi_upravu UPRAVA_2024 UPRAVA_2025 u_od u_do u_koef igeb below].
    z_prune; reflexivity.
Qed.

Lemma getKoefVeku_monotone_witness :
  (getKoefVeku "2024" (Int 35) <=? getKoefVeku "2024" (Int 36)) = true
  /\ (getKoefVeku "2024" (Int 35) <? getKoefVeku "2025" (Int 35)) = true.
Proof.
  apply (getKoefVeku_monotone "2024" "2024" "2025" 2024 2025 35 36);
    try reflexivity; lia.
Defined.

Ltac find_tier tiers :=
  lazymatch tiers with
  | ?u :: ?rest =>
      first [ solve [ exists u; split; [|split];
                      [ cbn; tauto | cbn; lia | cbn; z_prune; reflexivity ] ]
            | find_tier rest ]
  end.

Lemma tier_exists upravy a :
  upravy = UPRAVA_2024 \/ upravy = UPRAVA_2025 -> (0 <= a)%Z ->
  exists u, In u upravy /\ (u_od u <= a)%Z /\ below (Int a) (u_do u) = true.
Proof.
  intros Hu Ha.
  destruct (Z.ltb_spec a 36), (Z.ltb_spec a 72), (Z.ltb_spec a 108),
           (Z.ltb_spec a 144), (Z.ltb_spec a 156), (Z.ltb_spec a 180);
    try lia;
    (destruct Hu as [-> | ->];
     [ let t := eval unfold UPRAVA_2024 in UPRAVA_2024 in find_tier t
     | let t := eval unfold UPRAVA_2025 in UPRAVA_2025 in find_tier t ]).
Qed.

(** X8.  Every age from 0 on lies in a tier of the schedule, so the line
    after the loop of [getKoefVeku] is reached only for NaN and for a negative
    age, where it gives the last coefficient of the schedule; a tax year that
    [parseInt] cannot read selects the schedule of the years before 2025. *)
Theorem getKoefVeku_fallback (rok_value : string) (a : Z) :
  let upravy := if igeb (parseInt rok_value) (Int 2025)
                then UPRAVA_2025 else UPRAVA_2024 in
  ((0 <= a)%Z ->
     exists u, In u upravy /\ (u_od u <= a)%Z /\ below (Int a) (u_do u) = true
               /\ najdi_upravu upravy (Int a) = Some (u_koef u))
  /\ ((a < 0)%Z -> najdi_upravu upravy (Int a) = None
                   /\ getKoefVeku rok_value (Int a)
                      = if igeb (parseInt rok_value) (Int 2025) then 1.50 else 1.20)
  /\ najdi_upravu upravy NaNi = None
  /\ getKoefVeku rok_value NaNi
     = (if igeb (parseInt rok_value) (Int 2025) then 1.50 else 1.20)
  /\ (parseInt rok_value = NaNi -> upravy = UPRAVA_2024).
Proof.
  cbv zeta. unfold getKoefVeku.
  split; [|split; [|split; [|split]]].
  - intros Ha.
    set (upravy := if igeb (parseInt rok_value) (Int 2025)
                   then UPRAVA_2025 else UPRAVA_2024).
    assert (Hu : upravy = UPRAVA_2024 \/ upravy = UPRAVA_2025)
      by (subst upravy; destruct (igeb _ _); auto).
    destruct (tier_exists upravy a Hu Ha) as (u & Hin & Hlo & Hhi).
    exists u. repeat split; auto.
    apply najdi_upravu_in; auto.
    now destruct Hu as [-> | ->].
  - intros Ha.
    destruct (igeb _ _);
      cbn [najdi_upravu UPRAVA_2024 UPRAVA_2025 u_od u_do u_koef igeb below];
      z_prune; split; reflexivity.
  - now destruct (igeb _ _).
  - now destruct (igeb _ _).
  - now intros ->.
Qed.

Lemma getKoefVeku_fallback_witness :
  getKoefVeku "2025" (Int (-3)) = 1.50 /\ getKoefVeku "2024" (Int (-3)) = 1.20.
Proof.
  split.
  - apply (proj1 (proj2 (getKoefVeku_fallback "2025" (-3)))). lia.
  - apply (proj1 (proj2 (getKoefVeku_fallback "2024" (-3)))). lia.
Defined.

(** ** Months held *)

Lemma dan_s_mesiacmi rok_value v m s :
  sadzba (prepocitajVozidlo rok_value v) = Num s ->
  dan (prepocitajVozidlo rok_value (s_mesiacmi v m)) = Num (s / 12 * ToNumber m).
Proof.
  unfold prepocitajVozidlo. cbn [sadzba dan s_mesiacmi kategoria objem hmotnost
                                 datum hybrid plyn kombi mesiace].
  now intros [= <-].
Qed.

(** X9.  The tax is proportional to the months held: for every vehicle,
    twice the months (1 to 6) give exactly twice the tax, so half a year costs
    exactly half of the whole year. *)
Theorem tax_doubles_with_months (rok_value : string) (v : Vozidlo) (m : float) :
  In m [1; 2; 3; 4; 5; 6] ->
  exists t,
    dan (prepocitajVozidlo rok_value (s_mesiacmi v (Num m))) = Num t
    /\ dan (prepocitajVozidlo rok_value (s_mesiacmi v (Num (m * 2)))) = Num (t * 2)
    /\ dan (prepocitajVozidlo rok_value (s_mesiacmi v (Num 6)))
       = match dan (prepocitajVozidlo rok_value (s_mesiacmi v (Num 12))) with
         | Num year => Num (year / 2)
         | Unset => Unset
         end.
Proof.
  intros Hm. destruct (sadzba_range rok_value v) as (s & Hs & Hin).
  exists (s / 12 * m).
  rewrite !(dan_s_mesiacmi rok_value v _ s Hs). cbn [ToNumber].
  assert (B : forallb (fun s =>
                forallb (fun m => Leibniz.eqb (s / 12 * (m * 2)) (s / 12 * m * 2))
                        [1; 2; 3; 4; 5; 6]
                && Leibniz.eqb (s / 12 * 6) (s / 12 * 12 / 2)) UPRAVENE = true)
    by (vm_compute; reflexivity).
  rewrite forallb_forall in B. apply B in Hin.
  apply andb_prop in Hin as [H1 H2].
  rewrite forallb_forall in H1. apply H1 in Hm.
  apply Leibniz.eqb_spec in Hm, H2.
  split; [reflexivity|]. split; [now rewrite Hm | now rewrite H2].
Qed.

Lemma tax_doubles_with_months_witness :
  exists t,
    dan (prepocitajVozidlo "2024" (s_mesiacmi octavia (Num 3))) = Num t
    /\ dan (prepocitajVozidlo "2024" (s_mesiacmi octavia (Num (3 * 2)))) = Num (t * 2).
Proof.
  destruct (tax_doubles_with_months "2024" octavia 3) as (t & H1 & H2 & _).
  - cbn. tauto.
  - exists t. split; assumption.
Defined.

(** ** Saving and removing vehicles *)

Lemma remove_whitespace_clean (s : string) :
  forallb (fun c => negb (is_whitespace c))
          (list_ascii_of_string (remove_whitespace s)) = true.
Proof.
  induction s as [|c s IH]; [reflexivity|]. cbn [remove_whitespace].
  destruct (is_whitespace c) eqn:E; [exact IH|].
  cbn. now rewrite E, IH.
Qed.

Lemma remove_whitespace_blank (s : string) :
  forallb is_whitespace (list_ascii_of_string s) = true ->
  remove_whitespace s = "".
Proof.
  induction s as [|c s IH]; [reflexivity|]. cbn.
  intros H. apply andb_prop in H as [-> H]. now apply IH.
Qed.

Lemma zapis_length vs i v :
  (i < List.length vs)%nat -> List.length (zapis vs i v) = List.length vs.
Proof.
  intros H. unfold zapis.
  rewrite length_app, length_firstn.
  change (List.length (v :: skipn (S i) vs)) with (S (List.length (skipn (S i) vs))).
  rewrite length_skipn. lia.
Qed.

Lemma zapis_nth vs i v j :
  (i < List.length vs)%nat ->
  nth_error (zapis vs i v) j = if (j =? i)%nat then Some v else nth_error vs j.
Proof.
  intros H. unfold zapis.
  assert (Hl : List.length (firstn i vs) = i) by (rewrite length_firstn; lia).
  destruct (Nat.eqb_spec j i) as [-> | Hne].
  - rewrite nth_error_app2 by lia. rewrite Hl, Nat.sub_diag. reflexivity.
  - destruct (Nat.lt_ge_cases j i).
    + rewrite nth_error_app1 by lia. rewrite nth_error_firstn.
      now destruct (Nat.ltb_spec j i); [|lia].
    + rewrite nth_error_app2 by lia. rewrite Hl.
      destruct (j - i)%nat as [|k] eqn:E; [lia|]. cbn [nth_error].
      rewrite nth_error_skipn. f_equal. lia.
Qed.

Section Vozidla_properties.

Variable toUpperCase : string -> string.

(** The vehicle the dialog stores is the one a recomputation would give. *)
Lemma ulozene_vozidlo d st plate :
  let f := polia d in
  let r := prepocitat (rok st) f in
  let v := mkVozidlo plate (vKategoria f) (Some (vDatum f)) (Some (vDatumVzniku d))
             (Num (or_else (Num (vObjem f)) 0)) (Num (or_else (Num (vHmotnost f)) 0))
             (Num (or_else (Num (vMesiace f)) 12))
             (vHybrid f) (vPlyn f) (vKombi f)
             (Num (r_zakladna r)) (Num (r_sadzba r)) (Some (r_vek r))
             (Num (r_dan r)) in
  prepocitajVozidlo (rok st) v = v.
Proof. reflexivity. Qed.

(** X10.  Saving a new vehicle (no row being edited, a plate that is not
    blank) appends one vehicle to the array and leaves the others as they
    were; its plate is the dialog's in capitals without any white space; its
    derived fields are those a recomputation gives, so a page that was
    recomputed stays so; and [editIndex] is back at -1. *)
Theorem ulozitVozidlo_adds (d : Dialog) (editIndex : Z) (st : Stranka) :
  (editIndex < 0)%Z -> remove_whitespace (toUpperCase (vEvc d)) <> "" ->
  exists v,
    ulozitVozidlo toUpperCase d editIndex st
    = Ulozene (s_vozidlami st (vozidla st ++ [v])%list) (-1) (Pridane (evc v))
    /\ evc v = remove_whitespace (toUpperCase (vEvc d))
    /\ forallb (fun c => negb (is_whitespace c)) (list_ascii_of_string (evc v)) = true
    /\ prepocitajVozidlo (rok st) v = v
    /\ (prepocitatVsetky st = st ->
        prepocitatVsetky (s_vozidlami st (vozidla st ++ [v])%list)
        = s_vozidlami st (vozidla st ++ [v])%list)
    /\ celkovaDan (vozidla st ++ [v])
       = celkovaDan (vozidla st) + or_else (dan v) 0.
Proof.
  intros Hi He. unfold ulozitVozidlo.
  destruct (remove_whitespace (toUpperCase (vEvc d))) as [|c plate] eqn:E; [easy|].
  destruct (Z.leb_spec 0 editIndex); [lia|].
  match goal with
  | |- exists v, Ulozene (s_vozidlami _ (_ ++ [?x])%list) _ _ = _ /\ _ => exists x
  end.
  split; [reflexivity|]. cbn [evc].
  split; [reflexivity|].
  split; [rewrite <- E; apply remove_whitespace_clean|].
  split; [apply ulozene_vozidlo|].
  split.
  - intros Hst. apply (f_equal vozidla) in Hst.
    unfold prepocitatVsetky, s_vozidlami in *. cbn [vozidla rok] in *.
    f_equal. rewrite map_app. cbn [map]. rewrite ulozene_vozidlo.
    now rewrite Hst.
  - unfold celkovaDan. now rewrite fold_left_app.
Qed.

(** X11.  Saving while row [i] is edited replaces the vehicle of that row
    and no other: the array keeps its length and every other row, and
    [editIndex] is back at -1. *)
Theorem ulozitVozidlo_replaces (d : Dialog) (i : nat) (st : Stranka) :
  (i < List.length (vozidla st))%nat ->
  remove_whitespace (toUpperCase (vEvc d)) <> "" ->
  exists v st',
    ulozitVozidlo toUpperCase d (Z.of_nat i) st = Ulozene st' (-1) (Upravene (evc v))
    /\ List.length (vozidla st') = List.length (vozidla st)
    /\ nth_error (vozidla st') i = Some v
    /\ (forall j, j <> i -> nth_error (vozidla st') j = nth_error (vozidla st) j)
    /\ evc v = remove_whitespace (toUpperCase (vEvc d))
    /\ prepocitajVozidlo (rok st) v = v
    /\ rok st' = rok st /\ dic st' = dic st.
Proof.
  intros Hi He. unfold ulozitVozidlo.
  destruct (remove_whitespace (toUpperCase (vEvc d))) as [|c plate] eqn:E; [easy|].
  destruct (Z.leb_spec 0 (Z.of_nat i)); [|lia].
  rewrite Nat2Z.id.
  destruct (Nat.leb_spec i (List.length (vozidla st))); [|lia].
  match goal with
  | |- exists v st', Ulozene (s_vozidlami _ (zapis _ _ ?x)) _ _ = _ /\ _ =>
      exists x; eexists
  end.
  split; [reflexivity|]. cbn [vozidla s_vozidlami evc rok dic].
  split; [now apply zapis_length|].
  split; [rewrite zapis_nth by assumption; now rewrite Nat.eqb_refl|].
  split.
  - intros j Hj. rewrite zapis_nth by assumption.
    now destruct (Nat.eqb_spec j i).
  - repeat split; apply ulozene_vozidlo.
Qed.

(** X12.  A plate that is empty or only white space once in capitals is
    refused: nothing is stored, whatever row is being edited. *)
Theorem ulozitVozidlo_blank_plate (d : Dialog) (editIndex : Z) (st : Stranka) :
  forallb is_whitespace (list_ascii_of_string (toUpperCase (vEvc d))) = true ->
  ulozitVozidlo toUpperCase d editIndex st = Zadajte_ECV.
Proof.
  intros H. unfold ulozitVozidlo. now rewrite (remove_whitespace_blank _ H).
Qed.

(** X13.  Removing the row that a save has just appended gives back the
    array as it was before the save. *)
Theorem ulozit_then_odstran (d : Dialog) (editIndex : Z) (st st' : Stranka) z :
  ulozitVozidlo toUpperCase d editIndex st = Ulozene st' (-1) (Pridane z) ->
  odstranVozidlo true (List.length (vozidla st)) st' = Odstranene st z.
Proof.
  unfold ulozitVozidlo.
  destruct (remove_whitespace (toUpperCase (vEvc d))) as [|c plate]; [discriminate|].
  destruct (0 <=? editIndex)%Z.
  - destruct (_ <=? _)%nat; discriminate.
  - intros [= <- <-]. unfold odstranVozidlo. cbn [vozidla s_vozidlami].
    rewrite nth_error_app2 by lia. rewrite Nat.sub_diag. cbn [nth_error evc].
    rewrite firstn_app, Nat.sub_diag, firstn_all. cbn [firstn].
    rewrite skipn_all2 by (rewrite length_app; cbn; lia).
    rewrite !app_nil_r. now destruct st.
Qed.

End Vozidla_properties.

Lemma ulozitVozidlo_adds_witness :
  exists v,
    ulozitVozidlo velke dialog_octavia (-1) firma
    = Ulozene (s_vozidlami firma (vozidla firma ++ [v])%list) (-1) (Pridane "BA123AB")
    /\ prepocitajVozidlo "2024" v = v.
Proof.
  destruct (ulozitVozidlo_adds velke dialog_octavia (-1) firma)
    as (v & H1 & H2 & _ & H3 & _).
  - lia.
  - discriminate.
  - exists v. split; [|exact H3]. rewrite H1. now rewrite H2.
Defined.

Lemma ulozitVozidlo_replaces_witness :
  exists v st',
    ulozitVozidlo velke dialog_octavia 1 firma = Ulozene st' (-1) (Upravene (evc v))
    /\ List.length (vozidla st') = 2%nat
    /\ nth_error (vozidla st') 0 = nth_error (vozidla firma) 0.
Proof.
  destruct (ulozitVozidlo_replaces velke dialog_octavia 1 firma)
    as (v & st' & H1 & H2 & _ & H3 & _).
  - cbn. lia.
  - discriminate.
  - exists v, st'. split; [exact H1|]. split; [exact H2|]. now apply H3.
Defined.

Lemma ulozitVozidlo_blank_plate_witness :
  ulozitVozidlo velke (mkDialog "   " "" (polia dialog_octavia)) (-1) firma
  = Zadajte_ECV.
Proof.
  apply (ulozitVozidlo_blank_plate velke). reflexivity.
Defined.

Lemma ulozit_then_odstran_witness :
  exists st',
    ulozitVozidlo velke dialog_octavia (-1) firma = Ulozene st' (-1) (Pridane "BA123AB")
    /\ odstranVozidlo true 2 st' = Odstranene firma "BA123AB".
Proof.
  eexists. split; [reflexivity|].
  apply (ulozit_then_odstran velke dialog_octavia (-1) firma). reflexivity.
Defined.

Lemma vypustenie_nth (vs : list Vozidlo) (i j : nat) :
  nth_error (firstn i vs ++ skipn (S i) vs)%list j
  = if (j <? i)%nat then nth_error vs j else nth_error vs (S j).
Proof.
  destruct (Nat.le_gt_cases (List.length vs) i).
  - rewrite firstn_all2, skipn_all2, app_nil_r by lia.
    destruct (Nat.ltb_spec j i); [reflexivity|].
    transitivity (@None Vozidlo); [|symmetry]; apply nth_error_None; lia.
  - assert (Hl : List.length (firstn i vs) = i) by (rewrite length_firstn; lia).
    destruct (Nat.ltb_spec j i).
    + rewrite nth_error_app1 by lia. rewrite nth_error_firstn.
      now destruct (Nat.ltb_spec j i); [|lia].
    + rewrite nth_error_app2 by lia.
      rewrite Hl, nth_error_skipn. f_equal. lia.
Qed.

(** X14.  Removing a row: when the user declines nothing changes; with no
    vehicle at the index the call stops on a [TypeError] before it changes
    anything; otherwise exactly the vehicle of that row leaves the array, the
    rows before it stay and the rows behind it move up by one, and a page that
    was recomputed stays so. *)
Theorem odstranVozidlo_removes (index : nat) (st : Stranka) :
  odstranVozidlo false index st = Ponechane st
  /\ ((List.length (vozidla st) <= index)%nat ->
      odstranVozidlo true index st = TypeError)
  /\ (forall v, nth_error (vozidla st) index = Some v ->
      exists st',
        odstranVozidlo true index st = Odstranene st' (evc v)
        /\ S (List.length (vozidla st')) = List.length (vozidla st)
        /\ (forall j, (j < index)%nat ->
              nth_error (vozidla st') j = nth_error (vozidla st) j)
        /\ (forall j, (index <= j)%nat ->
              nth_error (vozidla st') j = nth_error (vozidla st) (S j))
        /\ (prepocitatVsetky st = st -> prepocitatVsetky st' = st')).
Proof.
  split; [reflexivity|]. split.
  - intros H. unfold odstranVozidlo.
    now rewrite (proj2 (nth_error_None (vozidla st) index) H).
  - intros v Hv. unfold odstranVozidlo. rewrite Hv.
    eexists. split; [reflexivity|]. cbn [vozidla s_vozidlami].
    assert (Hi : (index < List.length (vozidla st))%nat)
      by (apply nth_error_Some; congruence).
    split; [rewrite length_app, length_firstn, length_skipn; lia|].
    split; [|split].
    + intros j Hj. rewrite vypustenie_nth.
      now destruct (Nat.ltb_spec j index); [|lia].
    + intros j Hj. rewrite vypustenie_nth.
      now destruct (Nat.ltb_spec j index); [lia|].
    + intros Hst. apply (f_equal vozidla) in Hst.
      unfold prepocitatVsetky, s_vozidlami in *. cbn [vozidla rok] in *.
      f_equal. rewrite map_app, <- firstn_map, <- skipn_map. now rewrite Hst.
Qed.

Lemma odstranVozidlo_removes_witness :
  exists st',
    odstranVozidlo true 0 firma = Odstranene st' "BA123AB"
    /\ S (List.length (vozidla st')) = 2%nat.
Proof.
  destruct (proj2 (proj2 (odstranVozidlo_removes 0 firma))
              (prepocitajVozidlo "2024" octavia) eq_refl)
    as (st' & H1 & H2 & _).
  exists st'. split; [exact H1 | exact H2].
Defined.

(** ** What the export hands out *)

(** X15.  Whenever [exportXML] downloads a file, the page has a tax id and
    at least one vehicle, the file is named [dmv_<dic>_<rok>.xml], and its
    content is the page's own template when the page was opened from a file,
    and otherwise exactly what the server answered to a request that carried
    the page's tax id, tax year and vehicles unchanged; a call downloads at
    most one file. *)
Theorem exportXML_download (st : Stranka) (server : Poziadavka -> Odpoved)
    (file content : string) :
  In (Download file content) (exportXML st server) ->
  file = "dmv_" ++ dic st ++ "_" ++ rok st ++ ".xml"
  /\ dic st <> "" /\ vozidla st <> []
  /\ (if USE_API st
      then exists q, In (Fetch q) (exportXML st server)
                     /\ server q = Ok content
                     /\ p_vozidla q = vozidla st /\ p_rok q = rok st
                     /\ s_dic (p_spolocnost q) = dic st
                     /\ s_typ (p_spolocnost q) = "PO"
      else content = xml st)
  /\ List.length (filter (fun e => match e with Download _ _ => true | _ => false end)
                         (exportXML st server)) = 1%nat.
Proof.
  unfold exportXML.
  destruct (dic st) as [|c d] eqn:Ed; [intros [H|[]]; discriminate|].
  destruct (vozidla st) as [|v vs] eqn:Ev; [intros [H|[]]; discriminate|].
  destruct (USE_API st).
  - match goal with |- context [server ?b] => set (q := b) end.
    destruct (server q) eqn:Es; cbn [In];
      intros H; repeat destruct H as [H|H];
      try discriminate; try contradiction.
    injection H as <- <-.
    repeat split; try discriminate; try (now rewrite Ed).
    + unfold subor. now rewrite Ed.
    + exists q. split; [now left|]. repeat split; auto.
  - cbn [In]. intros H; repeat destruct H as [H|H];
      try discriminate; try contradiction.
    injection H as <- <-.
    repeat split; try discriminate. unfold subor. now rewrite Ed.
Qed.

Lemma exportXML_download_witness :
  "dmv_2020123456_2024.xml" = "dmv_" ++ dic firma ++ "_" ++ rok firma ++ ".xml"
  /\ dic firma <> "".
Proof.
  destruct (exportXML_download firma server_offline
              "dmv_2020123456_2024.xml" (xml firma)) as (H1 & H2 & _).
  - now left.
  - split; [exact H1 | exact H2].
Defined.

(** ** Reading a fleet from a document *)

(** X16.  [uploadPDF] sends a file only when its name ends in [.pdf] (in
    any case of the letters) and the page is served over HTTP, together with
    the page's tax year; and it changes the page only when the server reports
    success: without a file, with another kind of file, offline, on an error
    reply and on a failed request the page stays as it is. *)
Theorem uploadPDF_cautious (subor : option string)
    (server : string -> string -> OdpovedPDF) (st : Stranka) :
  (forall name r, In (Odoslanie name r) (fst (uploadPDF subor server st)) ->
     subor = Some name /\ endsWith (toLowerCase name) ".pdf" = true
     /\ USE_API st = true /\ r = rok st)
  /\ (snd (uploadPDF subor server st) <> st ->
      exists name sp voz message,
        subor = Some name /\ server name (rok st) = Nacitane sp voz message).
Proof.
  unfold uploadPDF.
  destruct subor as [name|]; [|split; [intros ? ? []|easy]].
  destruct (endsWith (toLowerCase name) ".pdf") eqn:Ep; cbn [negb];
    [|split; [intros ? ? [H|[]]; discriminate|easy]].
  destruct (USE_API st) eqn:Eu; cbn [negb];
    [|split; [intros ? ? [H|[]]; discriminate|easy]].
  destruct (server name (rok st)) as [sp voz message|error|message] eqn:Es;
    cbn [fst snd]; split; try easy;
    try (intros n r [H|[H|[]]]; try discriminate; injection H as <- <-; auto).
  intros _. now exists name, sp, voz, message.
Qed.

(** X17.  After a successful [uploadPDF] the vehicles of the page are the
    vehicles of the reply (none when the reply has no list) and no others,
    each with the derived fields of a recomputation under the page's tax
    year, so that a further [prepocitatVsetky] changes nothing; the company
    fields are those of the reply, empty where the reply has none; the tax
    year stays. *)
Theorem uploadPDF_loads (name : string)
    (server : string -> string -> OdpovedPDF) (st : Stranka)
    sp voz message :
  endsWith (toLowerCase name) ".pdf" = true -> USE_API st = true ->
  server name (rok st) = Nacitane sp voz message ->
  let st' := snd (uploadPDF (Some name) server st) in
  vozidla st' = map (prepocitajVozidlo (rok st))
                    (match voz with Some vs => vs | None => [] end)
  /\ prepocitatVsetky st' = st'
  /\ rok st' = rok st
  /\ dic st' = or_text (n_dic sp) "" /\ nazov st' = or_text (n_nazov sp) ""
  /\ ulica st' = or_text (n_ulica sp) "" /\ obec st' = or_text (n_obec sp) ""
  /\ fst (uploadPDF (Some name) server st)
     = [Odoslanie name (rok st);
        Oznamenie (or_text (n_nazov sp) ("(bez n" ++ a_acute ++ "zvu)"))
                  (List.length (match voz with Some vs => vs | None => [] end))].
Proof.
  intros Ep Eu Es. cbv zeta. unfold uploadPDF. rewrite Ep, Eu, Es.
  cbn [negb fst snd].
  split; [reflexivity|].
  split.
  { unfold prepocitatVsetky. cbn [vozidla rok USE_API dic nazov ulica cislo psc obec].
    f_equal. rewrite map_map. apply map_ext. intros v.
    apply prepocitajVozidlo_idempotent. }
  repeat (split; [reflexivity|]).
  unfold prepocitatVsetky. cbn [vozidla]. now rewrite length_map.
Qed.

Lemma uploadPDF_cautious_witness :
  Some "Vozidla.PDF" = Some "Vozidla.PDF"
  /\ endsWith (toLowerCase "Vozidla.PDF") ".pdf" = true.
Proof.
  destruct (proj1 (uploadPDF_cautious (Some "Vozidla.PDF") server_pdf
                     (mkStranka true "" "" "" "" "" "" "2024" []))
              "Vozidla.PDF" "2024") as (H1 & H2 & _).
  - now left.
  - split; [exact H1 | exact H2].
Defined.

Lemma uploadPDF_loads_witness :
  vozidla (snd (uploadPDF (Some "Vozidla.PDF") server_pdf
                  (mkStranka true "1" "Stara" "" "" "" "" "2024"
                             [s_pohonom octavia false false])))
  = [prepocitajVozidlo "2024" octavia].
Proof.
  apply (uploadPDF_loads "Vozidla.PDF" server_pdf
           (mkStranka true "1" "Stara" "" "" "" "" "2024"
                      [s_pohonom octavia false false])
           (mkSpolocnostPDF (Some "2020123456") None None None None None)
           (Some [octavia]) "OK"); reflexivity.
Defined.

(** ** Looking a company up in the registers *)

Lemma or_text_not_empty (v : option string) (d : string) :
  d <> "" -> or_text v d <> "".
Proof. intros H. destruct v as [[|c s]|]; cbn; auto. discriminate. Qed.

(** X18.  [overitSpolocnost] asks the register only when the page is served
    over HTTP and the tax id or the company id holds more than white space;
    the request carries the trimmed tax id, and as company id the trimmed one
    or, without it, the tax id, so never an empty one.  The inputs change only
    when the register finds the company. *)
Theorem overitSpolocnost_cautious (use_api : bool)
    (server : Dopyt -> OdpovedRegistra) (u : Udaje) :
  (trim (o_dic u) = "" -> trim (o_ico u) = "" ->
     overitSpolocnost use_api server u = ([Zadajte_DIC_alebo_ICO], u))
  /\ (forall q, In (Odoslany q) (fst (overitSpolocnost use_api server u)) ->
       use_api = true /\ q_ico q <> "" /\ q_dic q = trim (o_dic u)
       /\ (q_ico q = trim (o_ico u)
           \/ trim (o_ico u) = "" /\ q_ico q = trim (o_dic u)))
  /\ (snd (overitSpolocnost use_api server u) <> u ->
      exists q data source,
        In (Odoslany q) (fst (overitSpolocnost use_api server u))
        /\ server q = Najdene data source).
Proof.
  unfold overitSpolocnost.
  split; [now intros -> ->|].
  set (dic := trim (o_dic u)). set (ico := trim (o_ico u)).
  set (q := mkDopyt (or_text (Some ico) dic) dic).
  assert (Hq : dic <> "" \/ ico <> "" ->
               q_ico q <> "" /\ q_dic q = dic
               /\ (q_ico q = ico \/ ico = "" /\ q_ico q = dic)).
  { subst q. cbn [q_ico q_dic]. destruct ico as [|c i]; cbn [or_text].
    - intros [H | H]; [auto | contradiction].
    - intros _. split; [discriminate | auto]. }
  assert (Hblank : dic = "" /\ ico = "" \/ (dic <> "" \/ ico <> "")).
  { destruct dic, ico; auto; right; (left + right); discriminate. }
  destruct Hblank as [[-> ->] | Hid].
  - cbn [fst snd In]. split; [intros q' [H|[]]; discriminate | easy].
  - assert (E : forall A (x y : A),
              match dic, ico with
              | EmptyString, EmptyString => x
              | _, _ => y
              end = y).
    { intros A x y. destruct dic, ico; try reflexivity.
      destruct Hid; contradiction. }
    rewrite E. specialize (Hq Hid).
    destruct use_api; [|cbn; split; [intros q' [H|[]]; discriminate | easy]].
    fold q.
    destruct (server q) as [data source|error|message] eqn:Es; cbn [fst snd In].
    + split.
      * intros q' [H|[]]. injection H as <-. now split.
      * intros _. exists q, data, source. auto.
    + split; [|easy].
      intros q' [H|[H|[]]]; [|discriminate]. injection H as <-. now split.
    + split; [|easy].
      intros q' [H|[H|[]]]; [|discriminate]. injection H as <-. now split.
Qed.

(** X19.  When the register finds the company, every input takes the value
    the register returns; the tax id and the company id keep their trimmed
    value where the register returns none, the name and the address become
    empty there; and the ids are not both empty afterwards. *)
Theorem overitSpolocnost_fills (server : Dopyt -> OdpovedRegistra) (u : Udaje)
    (data : Zaznam_registra) (source : string) :
  trim (o_dic u) <> "" \/ trim (o_ico u) <> "" ->
  server (mkDopyt (or_text (Some (trim (o_ico u))) (trim (o_dic u))) (trim (o_dic u)))
  = Najdene data source ->
  let u' := snd (overitSpolocnost true server u) in
  o_dic u' = or_text (z_dic data) (trim (o_dic u))
  /\ o_ico u' = or_text (z_ico data) (trim (o_ico u))
  /\ o_nazov u' = or_text (z_nazov data) ""
  /\ o_ulica u' = or_text (z_ulica data) ""
  /\ o_cislo u' = or_text (z_cislo data) ""
  /\ o_psc u' = or_text (z_psc data) ""
  /\ o_obec u' = or_text (z_obec data) ""
  /\ (o_dic u' <> "" \/ o_ico u' <> "").
Proof.
  intros Hid Hs. cbv zeta. unfold overitSpolocnost.
  assert (E : forall A (x y : A),
            match trim (o_dic u), trim (o_ico u) with
            | EmptyString, EmptyString => x
            | _, _ => y
            end = y).
  { intros A x y. destruct (trim (o_dic u)), (trim (o_ico u)); try reflexivity.
    destruct Hid; contradiction. }
  rewrite E, Hs. cbn [snd o_dic o_ico o_nazov o_ulica o_cislo o_psc o_obec].
  repeat (split; [reflexivity|]).
  destruct Hid as [H | H]; [left | right]; now apply or_text_not_empty.
Qed.

Lemma overitSpolocnost_cautious_witness :
  overitSpolocnost true register (mkUdaje "  " "" "Stara" "" "" "" "")
  = ([Zadajte_DIC_alebo_ICO], mkUdaje "  " "" "Stara" "" "" "" "").
Proof.
  apply (overitSpolocnost_cautious true register
           (mkUdaje "  " "" "Stara" "" "" "" "")); reflexivity.
Defined.

Lemma overitSpolocnost_fills_witness :
  o_dic (snd (overitSpolocnost true register
                (mkUdaje "" " 31322832 " "Stara" "Ulica" "" "" "")))
  = "2020123456"
  /\ o_ico (snd (overitSpolocnost true register
                   (mkUdaje "" " 31322832 " "Stara" "Ulica" "" "" "")))
     = "31322832".
Proof.
  destruct (overitSpolocnost_fills register
              (mkUdaje "" " 31322832 " "Stara" "Ulica" "" "" "")
              (mkZaznam_registra (Some "2020123456") None (Some "Firma a.s.")
                                 None None None None) "ORSR")
    as (H1 & H2 & _).
  - right. discriminate.
  - reflexivity.
  - split; [exact H1 | exact H2].
Defined.
